(** * Augmented: task view synchronisation and audio helpers

    A shallow embedding of the client side of the task synchronisation
    channel ([hooks/useWebSocket.ts]), of the effect that copies the
    received list into the displayed one ([App.tsx]), of the shared type
    declarations ([types/index.ts]) and of the base64 helpers of
    [utils/api.ts], with the properties of the specification stated and
    proved (or refuted) over them. *)

From Stdlib Require Import List ZArith NArith Bool String Ascii Lia.
From Stdlib Require Import Strings.Byte.
From Stdlib Require QArith_base.
Import ListNotations.

Local Open Scope string_scope.
Local Open Scope list_scope.
Local Open Scope Z_scope.

(** ** types/index.ts *)

Module Types.

(** [interface Task].  Optional members are [option]s; [id] and
    [priority] are JavaScript numbers that hold integers. *)
Record Task := {
  id : Z;
  description : string;
  completed : bool;
  priority : Z;
  category : string;
  created_at : string;
  updated_at : option string;
  remind_at : option string;
  recurring : bool
}.

(** [enum ActionType]. *)
Inductive ActionType :=
| ADD_TASK
| COMPLETE_TASK
| LIST_TASKS
| MODIFY_TASK
| CLEAR_COMPLETED
| UPDATE_REMINDER
| UNCLEAR.

(** The string each member of the enum is initialised with. *)
Definition ActionType_value (a : ActionType) : string :=
  match a with
  | ADD_TASK => "add_task"
  | COMPLETE_TASK => "complete_task"
  | LIST_TASKS => "list_tasks"
  | MODIFY_TASK => "modify_task"
  | CLEAR_COMPLETED => "clear_completed"
  | UPDATE_REMINDER => "update_reminder"
  | UNCLEAR => "unclear"
  end.

(** The members in declaration order. *)
Definition ActionType_members : list ActionType :=
  [ADD_TASK; COMPLETE_TASK; LIST_TASKS; MODIFY_TASK; CLEAR_COMPLETED;
   UPDATE_REMINDER; UNCLEAR].

(** [interface TaskAction]: the structured action returned for a
    command.  [confidence] is a number in the unit interval, kept here
    as a rational. *)
Record TaskAction := {
  action : ActionType;
  task_description : option string;
  task_identifier : option string;
  new_description : option string;
  reminder_interval : option Z;
  priority_level : option Z;
  suggested_category : option string;
  confidence : QArith_base.Q;
  response_message : string;
  clarification_needed : option string
}.

(** [interface WebSocketMessage].  [data] is declared [any]; the hook
    reads it as a task record, so it is one here, and [None] stands for
    an absent (or otherwise falsy) member. *)
Record WebSocketMessage := {
  type : string;
  data : option Task;
  tasks : option (list Task)
}.

End Types.

(** ** hooks/useWebSocket.ts *)

Module UseWebSocket.
Import Types.

(** [WebSocket.readyState]. *)
Inductive ReadyState := CONNECTING | OPEN | CLOSING | CLOSED.

(** The state the hook owns: its two [useState] cells and its three
    refs.  [wsRef] is [None] for [null], otherwise the ready state of
    the socket it points to; [reconnectTimeoutRef] tells whether a timer
    handle has been stored.  [reconnectAttempts] starts at zero and is
    only incremented or reset, so the powers of two below are taken at
    exponents that are not negative. *)
Record State := {
  isConnected : bool;
  tasks : list Task;
  wsRef : option ReadyState;
  reconnectTimeoutRef : bool;
  reconnectAttempts : Z
}.

Definition maxReconnectAttempts : Z := 5.

(** What a handler asks of the platform, in program order. *)
Inductive Effect :=
| Send (message : WebSocketMessage)
| SetTimeout (delay : Z)
| ClearTimeout
| Close
| NewWebSocket
| ConsoleLog
| ConsoleError.

(** The state on mount: [useState(false)], [useState([])], [useRef(null)],
    [useRef()], [useRef(0)]. *)
Definition initial : State :=
  {| isConnected := false; tasks := []; wsRef := None;
     reconnectTimeoutRef := false; reconnectAttempts := 0 |}.

(** An object literal [{ type: t }]. *)
Definition control (t : string) : WebSocketMessage :=
  {| type := t; data := None; Types.tasks := None |}.

(** [connect]: a new socket is created, its handlers installed, and
    [wsRef] made to point to it; [constructed] is [false] when the
    constructor throws, which is caught and logged. *)
Definition connect (constructed : bool) (st : State) : State * list Effect :=
  if constructed then
    ({| isConnected := isConnected st; tasks := tasks st;
        wsRef := Some CONNECTING;
        reconnectTimeoutRef := reconnectTimeoutRef st;
        reconnectAttempts := reconnectAttempts st |},
     [NewWebSocket])
  else (st, [NewWebSocket; ConsoleError]).

(** [ws.onopen]. *)
Definition onopen (st : State) : State * list Effect :=
  ({| isConnected := true; tasks := tasks st;
      wsRef := option_map (fun _ => OPEN) (wsRef st);
      reconnectTimeoutRef := reconnectTimeoutRef st;
      reconnectAttempts := 0 |},
   [ConsoleLog; Send (control "ping")]).

(** The updater passed to [setTasks] on a [task_update]: [map] over the
    previous list, then [push] when [find] came back empty. *)
Definition upsert (prev : list Task) (d : Task) : list Task :=
  let updated := map (fun task => if id task =? id d then d else task) prev in
  match find (fun task => id task =? id d) prev with
  | None => updated ++ [d]
  | Some _ => updated
  end.

(** [ws.onclose]. *)
Definition onclose (st : State) : State * list Effect :=
  if reconnectAttempts st <? maxReconnectAttempts then
    let attempts := reconnectAttempts st + 1 in
    let delay := Z.min (1000 * 2 ^ attempts) 30000 in
    ({| isConnected := false; tasks := tasks st; wsRef := None;
        reconnectTimeoutRef := true;
        reconnectAttempts := attempts |},
     [ConsoleLog; SetTimeout delay])
  else
    ({| isConnected := false; tasks := tasks st; wsRef := None;
        reconnectTimeoutRef := reconnectTimeoutRef st;
        reconnectAttempts := reconnectAttempts st |},
     [ConsoleLog]).


(** [setTasks]. *)
Definition setTasks (l : list Task) (st : State) : State :=
  {| isConnected := isConnected st; tasks := l; wsRef := wsRef st;
     reconnectTimeoutRef := reconnectTimeoutRef st;
     reconnectAttempts := reconnectAttempts st |}.

(** A statement either completes with a value or throws. *)
Inductive Exc (A : Type) :=
| Ok (a : A)
| Throw.
Arguments Ok {A} a.
Arguments Throw {A}.

Definition bind {A B : Type} (x : Exc A) (f : A -> Exc B) : Exc B :=
  match x with
  | Ok a => f a
  | Throw => Throw
  end.

Notation "x <- e ;; k" := (bind e (fun x => k))
  (at level 61, e at next level, right associativity).

(** The values [JSON.parse] can return, as far as [onmessage] tells them
    apart: [null], on which reading a member throws; a value whose
    [type] member is missing or is not a string (a number, a string, an
    array, an object without it); and an envelope. *)
Inductive JsValue :=
| JsNull
| JsUntyped
| JsMessage (m : WebSocketMessage).

(** [message.type], [undefined] being [None]. *)
Definition get_type (message : JsValue) : Exc (option string) :=
  match message with
  | JsNull => Throw
  | JsUntyped => Ok None
  | JsMessage m => Ok (Some (type m))
  end.

(** The [switch] of [onmessage], reached once [message.type] has been
    read. *)
Definition dispatch (message : JsValue) (ty : option string) (st : State)
  : State * list Effect :=
  match message, ty with
  | JsMessage m, Some t =>
      if String.eqb t "pong" then (st, [])
      else if String.eqb t "tasks_update" then
        match Types.tasks m with
        | Some l => (setTasks l st, [])
        | None => (st, [])
        end
      else if String.eqb t "task_update" then
        match data m with
        | Some d => (setTasks (upsert (tasks st) d) st, [])
        | None => (st, [])
        end
      else (st, [ConsoleLog])
  | _, _ => (st, [ConsoleLog])
  end.

Section OnMessage.

(** [JSON.parse] is the platform's; it throws on text that is not
    JSON. *)
Variable JSON_parse : string -> Exc JsValue.

(** The body of the [try] block of [onmessage]. *)
Definition onmessage_try (event_data : string) (st : State)
  : Exc (State * list Effect) :=
  message <- JSON_parse event_data ;;
  ty <- get_type message ;;
  Ok (dispatch message ty st).

(** [ws.onmessage]: whatever the [try] block throws is caught and
    logged. *)
Definition onmessage (event_data : string) (st : State)
  : State * list Effect :=
  match onmessage_try event_data st with
  | Ok r => r
  | Throw => (st, [ConsoleError])
  end.

End OnMessage.

(** [sendMessage]. *)
Definition sendMessage (message : WebSocketMessage) (st : State)
  : State * list Effect :=
  match wsRef st with
  | Some OPEN => (st, [Send message])
  | _ => (st, [])
  end.

(** [requestTasks]. *)
Definition requestTasks (st : State) : State * list Effect :=
  sendMessage (control "get_tasks") st.

(** [disconnect]. *)
Definition disconnect (st : State) : State * list Effect :=
  ({| isConnected := false; tasks := tasks st; wsRef := None;
      reconnectTimeoutRef := reconnectTimeoutRef st;
      reconnectAttempts := reconnectAttempts st |},
   (if reconnectTimeoutRef st then [ClearTimeout] else [])
     ++ (match wsRef st with Some _ => [Close] | None => [] end)).

(** The callback given to [setTimeout] in [onclose]. *)
Definition reconnectTimer (constructed : bool) (st : State)
  : State * list Effect :=
  let (st', eff) := connect constructed st in (st', ConsoleLog :: eff).

(** The callback given to [setInterval] in the mounting effect. *)
Definition pingInterval (st : State) : State * list Effect :=
  match wsRef st with
  | Some OPEN => (st, [Send (control "ping")])
  | _ => (st, [])
  end.

(** What can happen to a mounted hook: the socket's events, the two
    timers, and calls of the functions the hook returns. *)
Inductive Event :=
| Opened
| Received (event_data : string)
| Closed
| ReconnectTimerFired (constructed : bool)
| PingIntervalFired
| CallSendMessage (message : WebSocketMessage)
| CallRequestTasks
| CallConnect (constructed : bool)
| CallDisconnect.

Definition is_Opened (e : Event) : bool :=
  match e with Opened => true | _ => false end.

Section Run.

Variable JSON_parse : string -> Exc JsValue.

Definition step (st : State) (e : Event) : State * list Effect :=
  match e with
  | Opened => onopen st
  | Received event_data => onmessage JSON_parse event_data st
  | Closed => onclose st
  | ReconnectTimerFired constructed => reconnectTimer constructed st
  | PingIntervalFired => pingInterval st
  | CallSendMessage message => sendMessage message st
  | CallRequestTasks => requestTasks st
  | CallConnect constructed => connect constructed st
  | CallDisconnect => disconnect st
  end.

(** The events of a trace handled one after the other, the effects
    collected in order. *)
Fixpoint run (st : State) (trace : list Event) : State * list Effect :=
  match trace with
  | [] => (st, [])
  | e :: trace' =>
      let (st1, eff1) := step st e in
      let (st2, eff2) := run st1 trace' in
      (st2, eff1 ++ eff2)
  end.

End Run.

Definition is_SetTimeout (e : Effect) : bool :=
  match e with SetTimeout _ => true | _ => false end.

(** The number of reconnections scheduled among some effects. *)
Definition scheduled (eff : list Effect) : nat :=
  List.length (filter is_SetTimeout eff).

End UseWebSocket.

(** ** App.tsx: the effect on [wsTasks] *)

Module App.
Import Types.

(** The part of [AppContent] the effect writes: the cached result of the
    [tasks] query ([None] while it is [undefined]) and [lastUpdate]. *)
Record View := {
  queryData : option (list Task);
  lastUpdate : string
}.

(** [const { data: tasks = [] } = useQuery(...)]: the list handed to
    [TaskList]. *)
Definition tasks (v : View) : list Task :=
  match queryData v with
  | Some l => l
  | None => []
  end.

(** The effect that runs when [wsTasks] changes; [now] is
    [new Date().toISOString()]. *)
Definition wsTasksEffect (now : string) (wsTasks : list Task) (v : View)
  : View :=
  if (0 <? Z.of_nat (List.length wsTasks)) then
    {| queryData := Some wsTasks; lastUpdate := now |}
  else v.

End App.

(** ** The platform functions [utils/api.ts] calls

    [FileReader.readAsDataURL], [String.prototype.split], [atob], the
    [Uint8Array] conversion and the [Blob] constructor belong to the
    browser and to the language; they are written out here after their
    definitions (RFC 4648 for the encoding, the forgiving-base64 decoding
    of the Infra standard for [atob], the File API for [Blob]).  Strings
    are sequences of 8-bit characters, which is all a data URL and a
    binary string contain. *)

Module Platform.

Local Open Scope char_scope.
Local Open Scope N_scope.

Record Blob := {
  type : string;
  bytes : list byte
}.

Definition alphabet : list ascii :=
  list_ascii_of_string
    "ABCDEFGHIJKLMNOPQRSTUVWXYZabcdefghijklmnopqrstuvwxyz0123456789+/".

Definition char_of_sextet (n : N) : ascii :=
  nth (N.to_nat n) alphabet "A".

Fixpoint index_of (c : ascii) (l : list ascii) : option N :=
  match l with
  | [] => None
  | x :: l' =>
      if Ascii.eqb x c then Some 0
      else option_map N.succ (index_of c l')
  end.

Definition sextet_of_char (c : ascii) : option N :=
  index_of c alphabet.

(** Three bytes give four groups of six bits; a last group of one or two
    bytes gives two or three, its missing bits zero. *)
Fixpoint sextets (bs : list N) : list N :=
  match bs with
  | a :: b :: c :: rest =>
      a / 4 :: (a mod 4) * 16 + b / 16 :: (b mod 16) * 4 + c / 64
        :: c mod 64 :: sextets rest
  | [a; b] => [a / 4; (a mod 4) * 16 + b / 16; (b mod 16) * 4]
  | [a] => [a / 4; (a mod 4) * 16]
  | [] => []
  end.

Fixpoint padding {A : Type} (bs : list A) : list ascii :=
  match bs with
  | _ :: _ :: _ :: rest => padding rest
  | [_; _] => ["="]
  | [_] => ["="; "="]
  | [] => []
  end.

Definition base64_encode (bs : list byte) : list ascii :=
  map char_of_sextet (sextets (map Byte.to_N bs)) ++ padding bs.

(** [reader.result] after [readAsDataURL]: the blob's type goes into the
    URL as it is, [application/octet-stream] standing in for an empty
    one. *)
Definition readAsDataURL (blob : Blob) : string :=
  ("data:"
     ++ (if String.eqb (type blob) EmptyString then "application/octet-stream"
         else type blob)
     ++ ";base64," ++ string_of_list_ascii (base64_encode (bytes blob)))%string.

(** [s.split(separator)] for a separator of one character. *)
Fixpoint split (separator : ascii) (s : string) : list string :=
  match s with
  | EmptyString => [EmptyString]
  | String c s' =>
      if Ascii.eqb c separator then EmptyString :: split separator s'
      else
        match split separator s' with
        | piece :: pieces => String c piece :: pieces
        | [] => [String c EmptyString]
        end
  end.

Definition is_ascii_whitespace (c : ascii) : bool :=
  let n := N_of_ascii c in
  (n =? 9) || (n =? 10) || (n =? 12) || (n =? 13) || (n =? 32).

(** One or two [=] at the very end are dropped. *)
Fixpoint remove_padding (data : list ascii) : list ascii :=
  match data with
  | [] => []
  | c :: rest =>
      if Ascii.eqb c "="
         && match rest with
            | [] => true
            | [d] => Ascii.eqb d "="
            | _ => false
            end
      then []
      else c :: remove_padding rest
  end.

Fixpoint all_sextets (data : list ascii) : option (list N) :=
  match data with
  | [] => Some []
  | c :: rest =>
      match sextet_of_char c, all_sextets rest with
      | Some n, Some ns => Some (n :: ns)
      | _, _ => None
      end
  end.

(** Four groups of six bits give three bytes; of a last group of two or
    three the incomplete byte is dropped. *)
Fixpoint octets (ns : list N) : list N :=
  match ns with
  | s1 :: s2 :: s3 :: s4 :: rest =>
      s1 * 4 + s2 / 16 :: (s2 mod 16) * 16 + s3 / 4 :: (s3 mod 4) * 64 + s4
        :: octets rest
  | [s1; s2; s3] => [s1 * 4 + s2 / 16; (s2 mod 16) * 16 + s3 / 4]
  | [s1; s2] => [s1 * 4 + s2 / 16]
  | _ => []
  end.

(** Forgiving-base64 decoding; [None] is failure. *)
Definition forgiving_base64_decode (data : list ascii) : option (list N) :=
  let data := filter (fun c => negb (is_ascii_whitespace c)) data in
  let data :=
    if (Nat.modulo (List.length data) 4 =? 0)%nat then remove_padding data
    else data in
  if (Nat.modulo (List.length data) 4 =? 1)%nat then None
  else option_map octets (all_sextets data).

(** [atob]: the decoded bytes as a binary string, or [None] when it
    throws [InvalidCharacterError]. *)
Definition atob (s : string) : option string :=
  option_map (fun ns => string_of_list_ascii (map ascii_of_N ns))
    (forgiving_base64_decode (list_ascii_of_string s)).

(** [s.charCodeAt(i)] for each [i] below [s.length]. *)
Definition charCodes (s : string) : list N :=
  map N_of_ascii (list_ascii_of_string s).

(** The conversion of a number to an element of a [Uint8Array]. *)
Definition ToUint8 (n : N) : byte :=
  match Byte.of_N (n mod 256) with
  | Some b => b
  | None => x00
  end.

Definition to_lower (c : ascii) : ascii :=
  let n := N_of_ascii c in
  if (65 <=? n) && (n <=? 90) then ascii_of_N (n + 32) else c.

(** [new Blob([byteArray], { type })]: a type with a character outside
    U+0020..U+007E becomes empty, any other is put in lower case. *)
Definition new_Blob (byteArray : list byte) (t : string) : Blob :=
  let cs := list_ascii_of_string t in
  {| type :=
       if forallb (fun c => (32 <=? N_of_ascii c) && (N_of_ascii c <=? 126)) cs
       then string_of_list_ascii (map to_lower cs)
       else EmptyString;
     bytes := byteArray |}.

End Platform.

(** ** utils/api.ts: the encoding helpers *)

Module Api.
Import Platform.

(** [blobToBase64]: the value the promise resolves with once the reader
    has loaded, [None] being [undefined]. *)
Definition blobToBase64 (blob : Blob) : option string :=
  let result := readAsDataURL blob in
  nth_error (split "," result) 1.

(** [base64ToBlob]; [None] when [atob] throws. *)
Definition base64ToBlob (base64 : string) (mimeType : string)
  : option Blob :=
  match atob base64 with
  | None => None
  | Some byteCharacters =>
      let byteNumbers := charCodes byteCharacters in
      let byteArray := map ToUint8 byteNumbers in
      Some (new_Blob byteArray mimeType)
  end.

End Api.

(** ** Sample values and auxiliary notions *)

Module Samples.
Import Types UseWebSocket.

Definition t1 : Task :=
  {| id := 1; description := "buy milk"; completed := false; priority := 3;
     category := "general"; created_at := "2024-01-01T00:00:00";
     updated_at := None; remind_at := None; recurring := false |}.

Definition t2 : Task :=
  {| id := 2; description := "call mum"; completed := false; priority := 2;
     category := "family"; created_at := "2024-01-02T00:00:00";
     updated_at := None; remind_at := None; recurring := false |}.

Definition t1_done : Task :=
  {| id := 1; description := "buy milk"; completed := true; priority := 3;
     category := "general"; created_at := "2024-01-01T00:00:00";
     updated_at := Some "2024-01-03T00:00:00"; remind_at := None;
     recurring := false |}.

(** What [JSON.parse] returned is an update the handler acts on: a
    [tasks_update] with its list or a [task_update] with its record. *)
Definition is_update (r : Exc JsValue) : bool :=
  match r with
  | Ok (JsMessage m) =>
      (String.eqb (type m) "tasks_update"
         && match Types.tasks m with Some _ => true | None => false end)
      || (String.eqb (type m) "task_update"
            && match data m with Some _ => true | None => false end)
  | _ => false
  end.

(** A message made of its type alone, as parsed. *)
Definition bare (t : string) : Exc JsValue := Ok (JsMessage (control t)).

End Samples.

Module Alphabet.
Import Platform.

Local Open Scope char_scope.
Local Open Scope N_scope.

(** The numbers of six bits. *)
Definition below64 : list N := map N.of_nat (seq 0 64).

(** A character that is neither white space, nor the padding sign, nor a
    comma. *)
Definition plain (c : ascii) : bool :=
  negb (is_ascii_whitespace c) && negb (Ascii.eqb c "=")
    && negb (Ascii.eqb c ",").

End Alphabet.

From Stdlib Require Permutation.
From Stdlib Require Qround.
From Stdlib Require DecimalString.

(** ** types/index.ts, the declarations the components use *)

Module AppTypes.
Import Types.

(** [enum AppState]. *)
Inductive AppState :=
| IDLE
| LISTENING
| PROCESSING
| SPEAKING
| ERROR.

(** [interface VoiceCommandResponse]. *)
Record VoiceCommandResponse := {
  action : TaskAction;
  success : bool;
  message : string
}.

(** [interface AudioRecording]. *)
Record AudioRecording := {
  blob : Platform.Blob;
  url : string;
  duration : Z
}.

End AppTypes.

(** ** hooks/useAudioRecorder.ts *)

Module AudioRecorder.
Import Platform AppTypes.

(** The state of the hook: [isRecording], [audioURL], whether
    [mediaRecorderRef] holds a recorder, and [audioChunksRef]. *)
Record State := {
  isRecording : bool;
  audioURL : string;
  mediaRecorderRef : bool;
  audioChunksRef : list Blob
}.

Definition initial : State :=
  {| isRecording := false; audioURL := EmptyString;
     mediaRecorderRef := false; audioChunksRef := [] |}.

(** [blob.size]. *)
Definition size (b : Blob) : Z := Z.of_nat (List.length (bytes b)).

(** [new Blob(parts, { type })] for parts that are blobs: their bytes one
    after the other. *)
Definition Blob_of_parts (parts : list Blob) (t : string) : Blob :=
  new_Blob (List.concat (map bytes parts)) t.

(** How the [try] block of [startRecording] can end: it completes; or
    [getUserMedia] rejects or the [MediaRecorder] constructor throws, with
    nothing assigned yet; or [start] throws, after the assignments. *)
Inductive StartOutcome :=
| Started
| NotAcquired
| StartThrows.

(** [startRecording]: the state it leaves and the value it resolves
    with. *)
Definition startRecording (o : StartOutcome) (st : State) : State * bool :=
  match o with
  | Started =>
      ({| isRecording := true; audioURL := audioURL st;
          mediaRecorderRef := true; audioChunksRef := [] |}, true)
  | NotAcquired => (st, false)
  | StartThrows =>
      ({| isRecording := isRecording st; audioURL := audioURL st;
          mediaRecorderRef := true; audioChunksRef := [] |}, false)
  end.

(** [mediaRecorder.ondataavailable]. *)
Definition ondataavailable (data : Blob) (st : State) : State :=
  if size data >? 0 then
    {| isRecording := isRecording st; audioURL := audioURL st;
       mediaRecorderRef := mediaRecorderRef st;
       audioChunksRef := audioChunksRef st ++ [data] |}
  else st.

(** The data events of a recording, in the order they arrive. *)
Definition deliver (ds : list Blob) (st : State) : State :=
  fold_left (fun s d => ondataavailable d s) ds st.

(** [stopRecording]: the value its promise resolves with and the state
    then.  [created] is what [URL.createObjectURL] returns; [pending] are
    the data events the recorder still delivers between the call of
    [stop] and its [stop] event, on which the handler set here runs. *)
Definition stopRecording (created : string) (pending : list Blob) (st : State)
  : option AudioRecording * State :=
  if negb (mediaRecorderRef st) || negb (isRecording st) then (None, st)
  else
    let st1 := deliver pending st in
    let audioBlob :=
      Blob_of_parts (audioChunksRef st1) "audio/webm;codecs=opus" in
    let recording := {| blob := audioBlob; url := created; duration := 0 |} in
    (Some recording,
     {| isRecording := false; audioURL := created;
        mediaRecorderRef := mediaRecorderRef st1;
        audioChunksRef := audioChunksRef st1 |}).

(** [clearRecording]; the boolean tells whether [URL.revokeObjectURL]
    was called. *)
Definition clearRecording (st : State) : State * bool :=
  if String.eqb (audioURL st) EmptyString then
    ({| isRecording := isRecording st; audioURL := audioURL st;
        mediaRecorderRef := mediaRecorderRef st; audioChunksRef := [] |},
     false)
  else
    ({| isRecording := isRecording st; audioURL := EmptyString;
        mediaRecorderRef := mediaRecorderRef st; audioChunksRef := [] |},
     true).

End AudioRecorder.

(** ** App.tsx: the handlers of [AppContent] *)

Module AppContent.
Import Types AppTypes.

(** The state of [AppContent] the handlers write. *)
Record Content := {
  appState : AppState;
  hasAudioPermission : bool;
  lastResponse : option TaskAction;
  showResponse : bool;
  view : App.View
}.

(** What a handler calls, in program order. *)
Inductive Effect :=
| Alert
| StopRecording
| BlobToBase64
| ProcessVoiceCommand (audio_data : option string)
| RefetchTasks
| ClearRecording
| StartRecording
| CompleteTask (id : Z)
| DeleteTask (id : Z)
| SetTimeout (delay : Z)
| ConsoleError.

(** A handler runs on the content, leaves a content and the effects it
    had, and completes or throws. *)
Definition Handler (A : Type) : Type :=
  Content -> Content * list Effect * UseWebSocket.Exc A.

Definition ret {A : Type} (a : A) : Handler A :=
  fun c => (c, [], UseWebSocket.Ok a).

Definition bind {A B : Type} (m : Handler A) (f : A -> Handler B)
  : Handler B :=
  fun c =>
    match m c with
    | (c1, eff1, UseWebSocket.Ok a) =>
        let '(c2, eff2, r) := f a c1 in (c2, eff1 ++ eff2, r)
    | (c1, eff1, UseWebSocket.Throw) => (c1, eff1, UseWebSocket.Throw)
    end.

Notation "x <- e ;; k" := (bind e (fun x => k))
  (at level 61, e at next level, right associativity).
Notation "e ;; k" := (bind e (fun _ => k))
  (at level 61, right associativity).

(** A call that is not awaited, and one that is: the awaited value is
    what the promise settles with. *)
Definition call (e : Effect) : Handler unit :=
  fun c => (c, [e], UseWebSocket.Ok tt).

Definition await {A : Type} (e : Effect) (settled : UseWebSocket.Exc A)
  : Handler A :=
  fun c => (c, [e], settled).

Definition modify (f : Content -> Content) : Handler unit :=
  fun c => (f c, [], UseWebSocket.Ok tt).

(** [try { body } catch { handler } finally { final }]. *)
Definition try_catch_finally (body handler final : Handler unit)
  : Handler unit :=
  fun c =>
    match body c with
    | (c1, eff1, UseWebSocket.Ok _) =>
        let '(c2, eff2, r) := final c1 in (c2, eff1 ++ eff2, r)
    | (c1, eff1, UseWebSocket.Throw) =>
        let '(c2, eff2, r) := (handler ;; final) c1 in
        (c2, eff1 ++ eff2, r)
    end.

(** [try { body } catch { handler }]. *)
Definition try_catch (body handler : Handler unit) : Handler unit :=
  try_catch_finally body handler (ret tt).

Definition setAppState (s : AppState) : Handler unit :=
  modify (fun c =>
    {| appState := s; hasAudioPermission := hasAudioPermission c;
       lastResponse := lastResponse c; showResponse := showResponse c;
       view := view c |}).

Definition setLastResponse (r : option TaskAction) : Handler unit :=
  modify (fun c =>
    {| appState := appState c; hasAudioPermission := hasAudioPermission c;
       lastResponse := r; showResponse := showResponse c; view := view c |}).

Definition setShowResponse (b : bool) : Handler unit :=
  modify (fun c =>
    {| appState := appState c; hasAudioPermission := hasAudioPermission c;
       lastResponse := lastResponse c; showResponse := b; view := view c |}).

Definition setLastUpdate (now : string) : Handler unit :=
  modify (fun c =>
    {| appState := appState c; hasAudioPermission := hasAudioPermission c;
       lastResponse := lastResponse c; showResponse := showResponse c;
       view := {| App.queryData := App.queryData (view c);
                  App.lastUpdate := now |} |}).

(** [await refetchTasks()]: the query library stores the list fetched,
    if one was ([Ok None] is a fetch that failed without rejecting). *)
Definition refetchTasks (settled : UseWebSocket.Exc (option (list Task)))
  : Handler unit :=
  fetched <- await RefetchTasks settled ;;
  match fetched with
  | Some l =>
      modify (fun c =>
        {| appState := appState c; hasAudioPermission := hasAudioPermission c;
           lastResponse := lastResponse c; showResponse := showResponse c;
           view := {| App.queryData := Some l;
                      App.lastUpdate := App.lastUpdate (view c) |} |})
  | None => ret tt
  end.

(** What the calls a handler awaits settle with, and the clock. *)
Record Awaited := {
  startRecording : bool;
  stopRecording : UseWebSocket.Exc (option AudioRecording);
  readerLoads : bool;
  processVoiceCommand : UseWebSocket.Exc VoiceCommandResponse;
  taskCall : UseWebSocket.Exc unit;
  refetched : UseWebSocket.Exc (option (list Task));
  now : string
}.

(** [handleVoiceButtonClick]. *)
Definition handleVoiceButtonClick (o : Awaited) : Handler unit :=
  fun c =>
    if negb (hasAudioPermission c) then call Alert c
    else
      match appState c with
      | LISTENING =>
          (setAppState PROCESSING ;;
           try_catch_finally
             (recording <- await StopRecording (stopRecording o) ;;
              match recording with
              | Some rec =>
                  audioBase64 <-
                    await BlobToBase64
                      (if readerLoads o
                       then UseWebSocket.Ok (Api.blobToBase64 (blob rec))
                       else UseWebSocket.Throw) ;;
                  response <-
                    await (ProcessVoiceCommand audioBase64)
                      (processVoiceCommand o) ;;
                  setLastResponse (Some (action response)) ;;
                  setShowResponse true ;;
                  setAppState IDLE ;;
                  refetchTasks (refetched o) ;;
                  setLastUpdate (now o)
              | None => ret tt
              end)
             (call ConsoleError ;;
              setAppState ERROR ;;
              call (SetTimeout 2000))
             (call ClearRecording)) c
      | IDLE =>
          (success <- await StartRecording
                        (UseWebSocket.Ok (startRecording o)) ;;
           if (success : bool) then setAppState LISTENING
           else (setAppState ERROR ;; call (SetTimeout 2000))) c
      | _ => ret tt c
      end.

(** The callback of the two [setTimeout(..., 2000)]. *)
Definition errorTimer : Handler unit := setAppState IDLE.

(** [handleCompleteTask]. *)
Definition handleCompleteTask (o : Awaited) (id : Z) : Handler unit :=
  try_catch
    (await (CompleteTask id) (taskCall o) ;;
     refetchTasks (refetched o) ;;
     setLastUpdate (now o))
    (call ConsoleError).

(** [handleDeleteTask]. *)
Definition handleDeleteTask (o : Awaited) (id : Z) : Handler unit :=
  try_catch
    (await (DeleteTask id) (taskCall o) ;;
     refetchTasks (refetched o) ;;
     setLastUpdate (now o))
    (call ConsoleError).

(** [handleCloseResponse]. *)
Definition handleCloseResponse : Handler unit :=
  setShowResponse false ;; setLastResponse None.

(** The content and the effects a handler leaves. *)
Definition outcome (h : Handler unit) (c : Content) : Content * list Effect :=
  fst (h c).

End AppContent.

(** ** useAudioRecorder as src/unnamed/part_003 has it

    The same hook with logging and two more checks; its state and its
    handling of data events are those above.  What differs in a way the
    caller sees is [stopRecording], which looks at the size of what was
    collected. *)

Module AudioRecorderChecked.
Import Platform AppTypes AudioRecorder.

(** [audioChunksRef.current.reduce((sum, chunk) => sum + chunk.size, 0)]. *)
Definition totalSize (chunks : list Blob) : Z :=
  fold_left (fun sum chunk => sum + size chunk) chunks 0.

(** [stopRecording]; [created] and [pending] as above.  With nothing
    collected it resolves with [null] before any state is set. *)
Definition stopRecording (created : string) (pending : list Blob) (st : State)
  : option AudioRecording * State :=
  if negb (mediaRecorderRef st) || negb (isRecording st) then (None, st)
  else
    let st1 := deliver pending st in
    if totalSize (audioChunksRef st1) =? 0 then (None, st1)
    else
      let audioBlob :=
        Blob_of_parts (audioChunksRef st1) "audio/webm;codecs=opus" in
      let recording :=
        {| blob := audioBlob; url := created; duration := 0 |} in
      (Some recording,
       {| isRecording := false; audioURL := created;
          mediaRecorderRef := mediaRecorderRef st1;
          audioChunksRef := audioChunksRef st1 |}).

End AudioRecorderChecked.

(** ** components/TaskList.tsx *)

Module TaskList.
Import Types.

Definition activeTasks (tasks : list Task) : list Task :=
  filter (fun task => negb (completed task)) tasks.

Definition completedTasks (tasks : list Task) : list Task :=
  filter (fun task => completed task) tasks.


(** The icons the list draws. *)
Inductive Icon :=
| AlertCircle (className : string)
| Clock (className : string).


Definition Qlt_bool (x y : QArith_base.Q) : bool :=
  negb (QArith_base.Qle_bool y x).

Section FormatDate.

(** [new Date(dateString).getTime()] in milliseconds, [None] for an
    invalid date (its time is [NaN], and every comparison with it is
    false); [date.toLocaleDateString()], which for an invalid date is the
    text the platform has for it. *)
Variable Date_parse : string -> option Z.
Variable toLocaleDateString : option Z -> string.

(** [formatDate]; [now] is [new Date().getTime()].  The times are whole
    milliseconds, for which the quotient below compares with 1 and 24 and
    is rounded down as its exact value is. *)
Definition formatDate (now : Z) (dateString : string) : string :=
  match Date_parse dateString with
  | None => toLocaleDateString None
  | Some date =>
      let diffInHours :=
        QArith_base.Qmake (now - date) (1000 * 60 * 60) in
      if Qlt_bool diffInHours (QArith_base.inject_Z 1) then "Just now"
      else if Qlt_bool diffInHours (QArith_base.inject_Z 24) then
        (DecimalString.NilZero.string_of_int
           (Z.to_int (Qround.Qfloor diffInHours)) ++ "h ago")%string
      else toLocaleDateString (Some date)
  end.

End FormatDate.

(** What the list draws, from top to bottom: a row per active task or
    the note that there is none; then, when a task is completed, a row
    for each of the first five completed tasks and, when there are more,
    the note that counts the others. *)
Inductive Row :=
| TaskItem (task : Task) (isCompleted : bool)
| NoActiveTasks
| MoreCompleted (count : Z).

Definition length_Z {A : Type} (l : list A) : Z := Z.of_nat (List.length l).

Definition rows (tasks : list Task) : list Row :=
  let activeTasks := activeTasks tasks in
  let completedTasks := completedTasks tasks in
  (if length_Z activeTasks =? 0 then [NoActiveTasks]
   else map (fun task => TaskItem task false) activeTasks)
  ++ (if length_Z completedTasks >? 0 then
        map (fun task => TaskItem task true) (firstn 5 completedTasks)
        ++ (if length_Z completedTasks >? 5 then
              [MoreCompleted (length_Z completedTasks - 5)]
            else [])
      else []).

(** The buttons of a row call [onCompleteTask] and [onDeleteTask] with
    the identifier of its task; a completed row has no button to
    complete. *)
Inductive Click :=
| OnCompleteTask (id : Z)
| OnDeleteTask (id : Z).

Definition buttons (r : Row) : list Click :=
  match r with
  | TaskItem task isCompleted =>
      (if negb isCompleted then [OnCompleteTask (id task)] else [])
      ++ [OnDeleteTask (id task)]
  | _ => []
  end.

End TaskList.

(** ** components/ResponseDisplay.tsx *)

Module ResponseDisplay.
Import Types.

Definition is_UNCLEAR (a : ActionType) : bool :=
  match a with
  | UNCLEAR => true
  | _ => false
  end.

(** The body of the effect on [isVisible] and [response]: the delay of
    the timer it sets for [onClose], if it sets one. *)
Definition autoClose (isVisible : bool) (response : option TaskAction)
  : option Z :=
  match response with
  | Some r =>
      if isVisible then
        if negb (is_UNCLEAR (action r)) then Some 5000 else None
      else None
  | None => None
  end.

(** The elements of the icons. *)
Inductive Icon :=
| MessageCircle (className : string)
| CheckCircle (className : string)
| HelpCircle (className : string)
| AlertCircle (className : string).

(** [getIcon]. *)
Definition getIcon (response : option TaskAction) : Icon :=
  match response with
  | None => MessageCircle "w-6 h-6"
  | Some r =>
      match action r with
      | ADD_TASK => CheckCircle "w-6 h-6 text-green-400"
      | COMPLETE_TASK => CheckCircle "w-6 h-6 text-blue-400"
      | LIST_TASKS => MessageCircle "w-6 h-6 text-purple-400"
      | MODIFY_TASK => CheckCircle "w-6 h-6 text-yellow-400"
      | CLEAR_COMPLETED => CheckCircle "w-6 h-6 text-orange-400"
      | UNCLEAR => HelpCircle "w-6 h-6 text-red-400"
      | _ => AlertCircle "w-6 h-6 text-gray-400"
      end
  end.

(** [getBackgroundColor]. *)
Definition getBackgroundColor (response : option TaskAction) : string :=
  match response with
  | None => "bg-gray-800/90"
  | Some r =>
      match action r with
      | ADD_TASK => "bg-green-800/90"
      | COMPLETE_TASK => "bg-blue-800/90"
      | LIST_TASKS => "bg-purple-800/90"
      | MODIFY_TASK => "bg-yellow-800/90"
      | CLEAR_COMPLETED => "bg-orange-800/90"
      | UNCLEAR => "bg-red-800/90"
      | _ => "bg-gray-800/90"
      end
  end.

(** [getBorderColor]. *)
Definition getBorderColor (response : option TaskAction) : string :=
  match response with
  | None => "border-gray-600"
  | Some r =>
      match action r with
      | ADD_TASK => "border-green-500"
      | COMPLETE_TASK => "border-blue-500"
      | LIST_TASKS => "border-purple-500"
      | MODIFY_TASK => "border-yellow-500"
      | CLEAR_COMPLETED => "border-orange-500"
      | UNCLEAR => "border-red-500"
      | _ => "border-gray-600"
      end
  end.

(** [s.replace(pattern, replacement)] for a pattern and a replacement of
    one character: the first occurrence is replaced. *)
Fixpoint replace (pattern replacement : ascii) (s : string) : string :=
  match s with
  | EmptyString => EmptyString
  | String c s' =>
      if Ascii.eqb c pattern then String replacement s'
      else String c (replace pattern replacement s')
  end.

(** The text after [Action:], [response.action.replace('_', ' ')]. *)
Definition actionLabel (r : TaskAction) : string :=
  replace "_" " " (ActionType_value (action r)).

(** Whether the panel is drawn, and in it the [Dismiss] button and the
    progress bar. *)
Definition panel (isVisible : bool) (response : option TaskAction) : bool :=
  isVisible && match response with Some _ => true | None => false end.

Definition dismissButton (isVisible : bool) (response : option TaskAction)
  : bool :=
  match response with
  | Some r => isVisible && negb (is_UNCLEAR (action r))
  | None => false
  end.

Definition progressBar (isVisible : bool) (response : option TaskAction)
  : bool :=
  match response with
  | Some r => isVisible && negb (is_UNCLEAR (action r))
  | None => false
  end.

End ResponseDisplay.

(** ** Notions the further properties are stated with *)

Module HookNotions.
Import Types UseWebSocket.

Definition is_Received (e : Event) : bool :=
  match e with Received _ => true | _ => false end.

(** The events that only try to send. *)
Definition is_sending (e : Event) : bool :=
  match e with
  | PingIntervalFired | CallSendMessage _ | CallRequestTasks => true
  | _ => false
  end.

(** The delays the hook ever asks for. *)
Definition delays : list Z := [2000; 4000; 8000; 16000; 30000].

Definition delay_ok (e : Effect) : Prop :=
  match e with
  | SetTimeout d => In d delays
  | _ => True
  end.

End HookNotions.

Module HandlerNotions.
Import Types AppTypes AppContent.

(** Clicks of the voice button one after the other, each with what its
    awaited calls settle with. *)
Fixpoint clicks (os : list Awaited) (c : Content) : Content * list Effect :=
  match os with
  | [] => (c, [])
  | o :: os' =>
      let (c1, eff1) := outcome (handleVoiceButtonClick o) c in
      let (c2, eff2) := clicks os' c1 in
      (c2, eff1 ++ eff2)
  end.

Definition resolved {A : Type} (r : UseWebSocket.Exc A) : bool :=
  match r with
  | UseWebSocket.Ok _ => true
  | UseWebSocket.Throw => false
  end.

Definition sample_action : TaskAction :=
  {| Types.action := ADD_TASK; task_description := Some "buy milk";
     task_identifier := None; new_description := None;
     reminder_interval := None; priority_level := None;
     suggested_category := None; confidence := QArith_base.Qmake 9 10;
     response_message := "Added"; clarification_needed := None |}.

Definition sample_recording : AudioRecording :=
  {| blob := {| Platform.type := "audio/webm;codecs=opus";
                Platform.bytes := [x1a; x45; xdf; xa3] |};
     url := "blob:recording"; duration := 0 |}.

Definition sample_awaited : Awaited :=
  {| startRecording := true;
     stopRecording := UseWebSocket.Ok (Some sample_recording);
     readerLoads := true;
     processVoiceCommand :=
       UseWebSocket.Ok {| AppTypes.action := sample_action; success := true;
                          message := "ok" |};
     taskCall := UseWebSocket.Ok tt;
     refetched := UseWebSocket.Ok (Some [Samples.t1]);
     now := "2024-01-03T00:00:00.000Z" |}.

Definition sample_content (s : AppState) : Content :=
  {| appState := s; hasAudioPermission := true; lastResponse := None;
     showResponse := false;
     view := {| App.queryData := None; App.lastUpdate := EmptyString |} |}.

(** The content with another state, response, view. *)
Definition content (c : Content) (s : AppState) (r : option TaskAction)
    (sh : bool) (v : App.View) : Content :=
  {| appState := s; hasAudioPermission := hasAudioPermission c;
     lastResponse := r; showResponse := sh; view := v |}.

(** What a click while listening leaves, case by case. *)
Definition listening_table (o : Awaited) (c : Content)
  : Content * list Effect :=
  match stopRecording o with
  | UseWebSocket.Ok (Some rec) =>
      if readerLoads o then
        let audio := Api.blobToBase64 (blob rec) in
        match processVoiceCommand o with
        | UseWebSocket.Ok response =>
            match refetched o with
            | UseWebSocket.Ok fetched =>
                (content c IDLE (Some (action response)) true
                   {| App.queryData :=
                        match fetched with
                        | Some l => Some l
                        | None => App.queryData (view c)
                        end;
                      App.lastUpdate := now o |},
                 [StopRecording; BlobToBase64; ProcessVoiceCommand audio;
                  RefetchTasks; ClearRecording])
            | UseWebSocket.Throw =>
                (content c ERROR (Some (action response)) true (view c),
                 [StopRecording; BlobToBase64; ProcessVoiceCommand audio;
                  RefetchTasks; ConsoleError; SetTimeout 2000;
                  ClearRecording])
            end
        | UseWebSocket.Throw =>
            (content c ERROR (lastResponse c) (showResponse c) (view c),
             [StopRecording; BlobToBase64; ProcessVoiceCommand audio;
              ConsoleError; SetTimeout 2000; ClearRecording])
        end
      else
        (content c ERROR (lastResponse c) (showResponse c) (view c),
         [StopRecording; BlobToBase64; ConsoleError; SetTimeout 2000;
          ClearRecording])
  | UseWebSocket.Ok None =>
      (content c PROCESSING (lastResponse c) (showResponse c) (view c),
       [StopRecording; ClearRecording])
  | UseWebSocket.Throw =>
      (content c ERROR (lastResponse c) (showResponse c) (view c),
       [StopRecording; ConsoleError; SetTimeout 2000; ClearRecording])
  end.

(** What [handleCompleteTask] and [handleDeleteTask] leave, the call
    being the one effect they differ in. *)
Definition task_table (o : Awaited) (call : Effect) (c : Content)
  : Content * list Effect :=
  match taskCall o with
  | UseWebSocket.Ok _ =>
      match refetched o with
      | UseWebSocket.Ok fetched =>
          (content c (appState c) (lastResponse c) (showResponse c)
             {| App.queryData :=
                  match fetched with
                  | Some l => Some l
                  | None => App.queryData (view c)
                  end;
                App.lastUpdate := now o |},
           [call; RefetchTasks])
      | UseWebSocket.Throw => (c, [call; RefetchTasks; ConsoleError])
      end
  | UseWebSocket.Throw => (c, [call; ConsoleError])
  end.

End HandlerNotions.

Module TaskListNotions.
Import Types TaskList.

(** The tasks drawn as rows, and the number the closing note counts. *)
Definition drawn (rs : list Row) : list Task :=
  flat_map (fun r => match r with TaskItem task _ => [task] | _ => [] end) rs.

Definition counted (rs : list Row) : Z :=
  fold_right (fun r n => match r with MoreCompleted k => k + n | _ => n end)
    0 rs.

End TaskListNotions.

Module ResponseSamples.
Import Types.

(** A response of a given kind. *)
Definition respond (a : ActionType) : TaskAction :=
  {| action := a; task_description := None; task_identifier := None;
     new_description := None; reminder_interval := None;
     priority_level := None; suggested_category := None;
     confidence := QArith_base.Qmake 1 2;
     response_message := "Which task?"; clarification_needed := None |}.

End ResponseSamples.

(** * Properties *)

(** ** The merge of a single-task update *)

Module UpsertFacts.
Import Types UseWebSocket Samples.

Lemma find_id_none (prev : list Task) (d : Task) :
  find (fun task => id task =? id d) prev = None <->
  ~ In (id d) (map id prev).
Proof.
  induction prev as [|t prev IH]; simpl.
  - split; [intros _ []|reflexivity].
  - destruct (Z.eqb_spec (id t) (id d)) as [E|E].
    + split; [discriminate|]. intros H. exfalso. apply H. now left.
    + rewrite IH. split.
      * intros H [H1|H1]; [now apply E|now apply H].
      * intros H H1. apply H. now right.
Qed.

Lemma find_id_some (prev : list Task) (d : Task) :
  (exists t, find (fun task => id task =? id d) prev = Some t) <->
  In (id d) (map id prev).
Proof.
  destruct (find _ prev) as [t|] eqn:F.
  - split; [intros _|intros _; now exists t].
    apply find_some in F. destruct F as [F1 F2].
    apply Z.eqb_eq in F2. rewrite <- F2. now apply in_map.
  - split; [intros [t H]; discriminate|].
    intros H. apply find_id_none in F. contradiction.
Qed.

Lemma map_replace_ids (prev : list Task) (d : Task) :
  map id (map (fun task => if id task =? id d then d else task) prev)
  = map id prev.
Proof.
  induction prev as [|t prev IH]; simpl; [reflexivity|].
  rewrite IH. now destruct (Z.eqb_spec (id t) (id d)) as [->|_].
Qed.

Lemma map_replace_absent (prev : list Task) (d : Task) :
  ~ In (id d) (map id prev) ->
  map (fun task => if id task =? id d then d else task) prev = prev.
Proof.
  induction prev as [|t prev IH]; simpl; [reflexivity|].
  intros H. rewrite IH by tauto.
  destruct (Z.eqb_spec (id t) (id d)) as [E|_]; [|reflexivity].
  exfalso. apply H. now left.
Qed.

Lemma upsert_present (prev : list Task) (d : Task) :
  In (id d) (map id prev) ->
  upsert prev d
  = map (fun task => if id task =? id d then d else task) prev.
Proof.
  intros H. apply find_id_some in H. destruct H as [t H].
  unfold upsert. now rewrite H.
Qed.

Lemma upsert_absent (prev : list Task) (d : Task) :
  ~ In (id d) (map id prev) -> upsert prev d = prev ++ [d].
Proof.
  intros H. unfold upsert.
  rewrite (proj2 (find_id_none prev d) H).
  now rewrite map_replace_absent.
Qed.

Lemma upsert_ids (prev : list Task) (d : Task) :
  map id (upsert prev d)
  = if in_dec Z.eq_dec (id d) (map id prev) then map id prev
    else map id prev ++ [id d].
Proof.
  destruct (in_dec Z.eq_dec (id d) (map id prev)) as [H|H].
  - rewrite upsert_present by assumption. apply map_replace_ids.
  - rewrite upsert_absent by assumption. now rewrite map_app.
Qed.

Lemma NoDup_snoc (x : Z) (l : list Z) :
  NoDup l -> ~ In x l -> NoDup (l ++ [x]).
Proof.
  induction 1 as [|y l Hy Hl IH]; simpl; intros Hx.
  - constructor; [intros []|constructor].
  - constructor.
    + rewrite in_app_iff. simpl. intros [H|[H|[]]]; [now apply Hy|].
      apply Hx. now left.
    + apply IH. intros H. apply Hx. now right.
Qed.

(** A [task_update] that carries a record runs the updater on the
    current list. *)
Lemma onmessage_task_update JSON_parse event_data m d st :
  JSON_parse event_data = Ok (JsMessage m) ->
  type m = "task_update" ->
  data m = Some d ->
  onmessage JSON_parse event_data st
  = (setTasks (upsert (tasks st) d) st, []).
Proof.
  intros HP HT HD. unfold onmessage, onmessage_try.
  rewrite HP. simpl. now rewrite HT, HD.
Qed.

Example upsert_replaces : upsert [t1; t2] t1_done = [t1_done; t2].
Proof. reflexivity. Qed.

Example upsert_appends : upsert [t1] t2 = [t1; t2].
Proof. reflexivity. Qed.

End UpsertFacts.

(** C1.  A [task_update] message carrying one task record is merged into
    the view as follows: when a task of the view has the record's
    identifier, the view keeps its length and every position that held
    such a task now holds the record, every other position its old task;
    when none has, the view is the old one with the record added at the
    end. *)
Theorem C1_upsert_merge
    (JSON_parse : string -> UseWebSocket.Exc UseWebSocket.JsValue)
    (event_data : string) (m : Types.WebSocketMessage) (d : Types.Task)
    (st : UseWebSocket.State) :
  JSON_parse event_data = UseWebSocket.Ok (UseWebSocket.JsMessage m) ->
  Types.type m = "task_update" ->
  Types.data m = Some d ->
  let view := UseWebSocket.tasks st in
  let view' :=
    UseWebSocket.tasks (fst (UseWebSocket.onmessage JSON_parse event_data st)) in
  ((exists t, In t view /\ Types.id t = Types.id d) ->
     List.length view' = List.length view /\
     forall i t, nth_error view i = Some t ->
       nth_error view' i
       = Some (if Types.id t =? Types.id d then d else t))
  /\ ((forall t, In t view -> Types.id t <> Types.id d) ->
        view' = view ++ [d]).
Proof.
  intros HP HT HD view view'.
  assert (E : view' = UseWebSocket.upsert view d).
  { unfold view'.
    now rewrite (UpsertFacts.onmessage_task_update _ _ _ _ _ HP HT HD). }
  rewrite E. split.
  - intros [t [Hin Hid]].
    rewrite UpsertFacts.upsert_present
      by (rewrite <- Hid; now apply in_map).
    split; [apply length_map|].
    intros i u Hu. rewrite nth_error_map, Hu. reflexivity.
  - intros H. apply UpsertFacts.upsert_absent.
    rewrite in_map_iff. intros [t [Hid Hin]]. now apply (H t).
Qed.

Lemma C1_upsert_merge_witness :
  let parse := fun _ : string =>
    UseWebSocket.Ok (UseWebSocket.JsMessage
      {| Types.type := "task_update"; Types.data := Some Samples.t1_done;
         Types.tasks := None |}) in
  let st := UseWebSocket.setTasks [Samples.t1; Samples.t2]
              UseWebSocket.initial in
  UseWebSocket.tasks (fst (UseWebSocket.onmessage parse EmptyString st))
  = [Samples.t1_done; Samples.t2]
  /\ List.length
       (UseWebSocket.tasks (fst (UseWebSocket.onmessage parse EmptyString st))) = 2%nat.
Proof.
  intros parse st.
  destruct (C1_upsert_merge parse EmptyString _ Samples.t1_done st
              eq_refl eq_refl eq_refl) as [H _].
  split; [reflexivity|].
  apply H. exists Samples.t1. split; [now left|reflexivity].
Defined.

(** C8.  On a view whose identifiers are pairwise distinct the merge
    yields a view whose identifiers are pairwise distinct again; its
    length is the old one when the record's identifier was in the view and
    one more when it was not. *)
Theorem C8_upsert_preserves_distinct (prev : list Types.Task) (d : Types.Task) :
  NoDup (map Types.id prev) ->
  NoDup (map Types.id (UseWebSocket.upsert prev d))
  /\ (In (Types.id d) (map Types.id prev) ->
        List.length (UseWebSocket.upsert prev d) = List.length prev)
  /\ (~ In (Types.id d) (map Types.id prev) ->
        List.length (UseWebSocket.upsert prev d) = S (List.length prev)).
Proof.
  intros ND. split; [|split].
  - rewrite UpsertFacts.upsert_ids.
    destruct (in_dec Z.eq_dec _ _) as [H|H]; [assumption|].
    now apply UpsertFacts.NoDup_snoc.
  - intros H. rewrite UpsertFacts.upsert_present by assumption.
    apply length_map.
  - intros H. rewrite UpsertFacts.upsert_absent by assumption.
    rewrite length_app. simpl. lia.
Qed.

Lemma C8_upsert_preserves_distinct_witness :
  NoDup (map Types.id
           (UseWebSocket.upsert [Samples.t1] Samples.t2))
  /\ List.length (UseWebSocket.upsert [Samples.t1] Samples.t2) = 2%nat.
Proof.
  assert (ND : NoDup (map Types.id [Samples.t1])).
  { simpl. constructor; [intros []|constructor]. }
  destruct (C8_upsert_preserves_distinct [Samples.t1] Samples.t2 ND)
    as [H1 [_ H3]].
  split; [exact H1|].
  apply H3. simpl. intros [H|[]]. discriminate H.
Defined.

(** ** Full-list snapshots *)

Module SnapshotFacts.
Import Types UseWebSocket.

Lemma onmessage_tasks_update JSON_parse event_data m l st :
  JSON_parse event_data = Ok (JsMessage m) ->
  type m = "tasks_update" ->
  Types.tasks m = Some l ->
  onmessage JSON_parse event_data st = (setTasks l st, []).
Proof.
  intros HP HT HL. unfold onmessage, onmessage_try.
  rewrite HP. simpl. now rewrite HT, HL.
Qed.

(** An empty array is truthy: the guard of the hook lets it through. *)
Example empty_snapshot_reaches_hook :
  tasks (fst (onmessage
                (fun _ => Ok (JsMessage {| type := "tasks_update";
                                           data := None;
                                           Types.tasks := Some [] |}))
                EmptyString (setTasks [Samples.t1] initial))) = [].
Proof. reflexivity. Qed.

Lemma wsTasksEffect_tasks now (l : list Task) (v : App.View) :
  App.tasks (App.wsTasksEffect now l v)
  = match l with [] => App.tasks v | _ :: _ => l end.
Proof. now destruct l. Qed.

End SnapshotFacts.

(** C2, as the code has it.  After a [tasks_update] message carrying a
    list the hook's task list is that list, whatever it was before, the
    empty list included.  The list the application displays follows only
    a list that is not empty: the effect on [wsTasks] leaves the displayed
    list as it was when the received list is empty. *)
Theorem C2_snapshot_replaces_view
    (JSON_parse : string -> UseWebSocket.Exc UseWebSocket.JsValue)
    (event_data : string) (m : Types.WebSocketMessage) (l : list Types.Task)
    (st : UseWebSocket.State) (now : string) (v : App.View) :
  JSON_parse event_data = UseWebSocket.Ok (UseWebSocket.JsMessage m) ->
  Types.type m = "tasks_update" ->
  Types.tasks m = Some l ->
  let wsTasks :=
    UseWebSocket.tasks (fst (UseWebSocket.onmessage JSON_parse event_data st)) in
  wsTasks = l
  /\ (l <> [] -> App.tasks (App.wsTasksEffect now wsTasks v) = l)
  /\ (l = [] -> App.wsTasksEffect now wsTasks v = v).
Proof.
  intros HP HT HL wsTasks.
  assert (E : wsTasks = l).
  { unfold wsTasks.
    now rewrite (SnapshotFacts.onmessage_tasks_update _ _ _ _ _ HP HT HL). }
  rewrite E. split; [reflexivity|split].
  - intros H. rewrite SnapshotFacts.wsTasksEffect_tasks.
    destruct l; [contradiction|reflexivity].
  - intros ->. reflexivity.
Qed.

Lemma C2_snapshot_replaces_view_witness :
  let parse := fun _ : string =>
    UseWebSocket.Ok (UseWebSocket.JsMessage
      {| Types.type := "tasks_update"; Types.data := None;
         Types.tasks := Some [Samples.t2] |}) in
  let st := UseWebSocket.setTasks [Samples.t1] UseWebSocket.initial in
  let v := {| App.queryData := Some [Samples.t1]; App.lastUpdate := EmptyString |} in
  UseWebSocket.tasks (fst (UseWebSocket.onmessage parse EmptyString st))
  = [Samples.t2]
  /\ App.tasks
       (App.wsTasksEffect "2024-01-03T00:00:00.000Z"
          (UseWebSocket.tasks (fst (UseWebSocket.onmessage parse EmptyString st))) v)
     = [Samples.t2].
Proof.
  intros parse st v.
  destruct (C2_snapshot_replaces_view parse EmptyString _ [Samples.t2] st
              "2024-01-03T00:00:00.000Z" v eq_refl eq_refl eq_refl)
    as [H1 [H2 _]].
  split; [exact H1|].
  apply H2. discriminate.
Defined.

(** C2, as stated, fails on the displayed list: with one task displayed,
    an empty snapshot leaves that task displayed. *)
Lemma C2_empty_snapshot_not_displayed :
  let parse := fun _ : string =>
    UseWebSocket.Ok (UseWebSocket.JsMessage
      {| Types.type := "tasks_update"; Types.data := None;
         Types.tasks := Some [] |}) in
  let st := UseWebSocket.setTasks [Samples.t1] UseWebSocket.initial in
  let v := {| App.queryData := Some [Samples.t1]; App.lastUpdate := EmptyString |} in
  let wsTasks := UseWebSocket.tasks (fst (UseWebSocket.onmessage parse EmptyString st)) in
  App.tasks (App.wsTasksEffect "2024-01-03T00:00:00.000Z" wsTasks v)
  = [Samples.t1]
  /\ App.tasks (App.wsTasksEffect "2024-01-03T00:00:00.000Z" wsTasks v) <> [].
Proof.
  split; [reflexivity|discriminate].
Qed.

(** ** Reconnection *)

Module ReconnectFacts.
Import Types UseWebSocket.

Lemma onclose_below (st : State) :
  reconnectAttempts st < maxReconnectAttempts ->
  onclose st
  = ({| isConnected := false; tasks := tasks st; wsRef := None;
        reconnectTimeoutRef := true;
        reconnectAttempts := reconnectAttempts st + 1 |},
     [ConsoleLog;
      SetTimeout (Z.min (1000 * 2 ^ (reconnectAttempts st + 1)) 30000)]).
Proof.
  intros H. unfold onclose.
  destruct (Z.ltb_spec (reconnectAttempts st) maxReconnectAttempts);
    [reflexivity|lia].
Qed.

Lemma onclose_exhausted (st : State) :
  maxReconnectAttempts <= reconnectAttempts st ->
  reconnectAttempts (fst (onclose st)) = reconnectAttempts st
  /\ snd (onclose st) = [ConsoleLog].
Proof.
  intros H. unfold onclose.
  destruct (Z.ltb_spec (reconnectAttempts st) maxReconnectAttempts);
    [lia|now split].
Qed.

Lemma onmessage_attempts JSON_parse event_data st :
  reconnectAttempts (fst (onmessage JSON_parse event_data st))
  = reconnectAttempts st
  /\ scheduled (snd (onmessage JSON_parse event_data st)) = 0%nat.
Proof.
  unfold onmessage, onmessage_try.
  destruct (JSON_parse event_data) as [[| |m]|]; simpl; try now split.
  destruct (String.eqb (type m) "pong"); [now split|].
  destruct (String.eqb (type m) "tasks_update");
    [destruct (Types.tasks m); now split|].
  destruct (String.eqb (type m) "task_update");
    [destruct (data m); now split|now split].
Qed.

(** One event other than [Opened]: the counter grows by what was
    scheduled and stays within the budget. *)
Lemma step_budget JSON_parse (st : State) (e : Event) :
  is_Opened e = false ->
  0 <= reconnectAttempts st <= maxReconnectAttempts ->
  reconnectAttempts (fst (step JSON_parse st e))
  = reconnectAttempts st + Z.of_nat (scheduled (snd (step JSON_parse st e)))
  /\ reconnectAttempts (fst (step JSON_parse st e)) <= maxReconnectAttempts.
Proof.
  intros HO HA. destruct e; try discriminate HO; simpl.
  - destruct (onmessage_attempts JSON_parse event_data st) as [-> ->].
    simpl. lia.
  - destruct (Z.eq_dec (reconnectAttempts st) maxReconnectAttempts) as [E|E].
    + destruct (onclose_exhausted st) as [-> ->]; [lia|].
      unfold scheduled. simpl. lia.
    + rewrite onclose_below by lia. unfold scheduled. simpl. lia.
  - unfold scheduled. destruct constructed; simpl; lia.
  - unfold pingInterval, scheduled.
    destruct (wsRef st) as [[]|]; simpl; lia.
  - unfold sendMessage, scheduled.
    destruct (wsRef st) as [[]|]; simpl; lia.
  - unfold requestTasks, sendMessage, scheduled.
    destruct (wsRef st) as [[]|]; simpl; lia.
  - unfold scheduled. destruct constructed; simpl; lia.
  - unfold scheduled. simpl.
    destruct (reconnectTimeoutRef st), (wsRef st); simpl; lia.
Qed.

Lemma scheduled_app (e1 e2 : list Effect) :
  scheduled (e1 ++ e2) = (scheduled e1 + scheduled e2)%nat.
Proof. unfold scheduled. now rewrite filter_app, length_app. Qed.

Lemma run_budget JSON_parse (trace : list Event) : forall st : State,
  forallb (fun e => negb (is_Opened e)) trace = true ->
  0 <= reconnectAttempts st <= maxReconnectAttempts ->
  reconnectAttempts (fst (run JSON_parse st trace))
  = reconnectAttempts st + Z.of_nat (scheduled (snd (run JSON_parse st trace)))
  /\ reconnectAttempts (fst (run JSON_parse st trace)) <= maxReconnectAttempts.
Proof.
  induction trace as [|e trace IH]; intros st HT HA; simpl.
  - unfold scheduled. simpl. lia.
  - simpl in HT. apply andb_true_iff in HT. destruct HT as [He HT].
    apply negb_true_iff in He.
    pose proof (step_budget JSON_parse st e He HA) as [S1 S2].
    destruct (step JSON_parse st e) as [st1 eff1]. simpl in S1, S2.
    assert (HA1 : 0 <= reconnectAttempts st1 <= maxReconnectAttempts) by lia.
    pose proof (IH st1 HT HA1) as [R1 R2].
    destruct (run JSON_parse st1 trace) as [st2 eff2]. simpl in R1, R2.
    simpl. rewrite scheduled_app. lia.
Qed.

Lemma run_app JSON_parse (trace1 trace2 : list Event) : forall st : State,
  run JSON_parse st (trace1 ++ trace2)
  = let (st1, eff1) := run JSON_parse st trace1 in
    let (st2, eff2) := run JSON_parse st1 trace2 in
    (st2, eff1 ++ eff2).
Proof.
  induction trace1 as [|e trace1 IH]; intros st; simpl.
  - now destruct (run JSON_parse st trace2).
  - destruct (step JSON_parse st e) as [st0 eff0]. rewrite IH.
    destruct (run JSON_parse st0 trace1) as [st1 eff1].
    destruct (run JSON_parse st1 trace2) as [st2 eff2].
    now rewrite app_assoc.
Qed.

(** The connection drops, three attempts fail and the fourth succeeds:
    the counter is back to zero. *)
Example three_failures_then_open :
  reconnectAttempts
    (fst (run (fun _ => Throw) initial
            [CallConnect true; Opened; Closed;
             ReconnectTimerFired true; Closed;
             ReconnectTimerFired true; Closed;
             ReconnectTimerFired true; Closed;
             ReconnectTimerFired true; Opened])) = 0.
Proof. reflexivity. Qed.

(** The disconnection and then the failure of every attempt: of seven
    closes the first five schedule a reconnection, the last two none. *)
Example seven_closes :
  snd (run (fun _ => Throw) initial
         [Closed; ReconnectTimerFired true; Closed; ReconnectTimerFired true;
          Closed; ReconnectTimerFired true; Closed; ReconnectTimerFired true;
          Closed; ReconnectTimerFired true; Closed; Closed])
  = [ConsoleLog; SetTimeout 2000; ConsoleLog; NewWebSocket;
     ConsoleLog; SetTimeout 4000; ConsoleLog; NewWebSocket;
     ConsoleLog; SetTimeout 8000; ConsoleLog; NewWebSocket;
     ConsoleLog; SetTimeout 16000; ConsoleLog; NewWebSocket;
     ConsoleLog; SetTimeout 30000; ConsoleLog; NewWebSocket;
     ConsoleLog; ConsoleLog].
Proof. reflexivity. Qed.

End ReconnectFacts.

(** C3, as the code has it.  The counter is incremented before the delay
    is computed, so the delay before attempt [n] (the first being 1) is
    [min (1000 * 2^n) 30000] milliseconds: 2 s, 4 s, 8 s, 16 s, and 30 s
    for the fifth, each the double of the one before as long as the cap
    is not reached. *)
Theorem C3_backoff_delay (st : UseWebSocket.State) (n : Z) :
  1 <= n <= UseWebSocket.maxReconnectAttempts ->
  UseWebSocket.reconnectAttempts st = n - 1 ->
  snd (UseWebSocket.onclose st)
  = [UseWebSocket.ConsoleLog;
     UseWebSocket.SetTimeout (Z.min (1000 * 2 ^ n) 30000)]
  /\ UseWebSocket.reconnectAttempts (fst (UseWebSocket.onclose st)) = n
  /\ Z.min (1000 * 2 ^ n) 30000 <= 30000
  /\ (n < 4 ->
      Z.min (1000 * 2 ^ (n + 1)) 30000 = 2 * Z.min (1000 * 2 ^ n) 30000).
Proof.
  intros Hn Ha. unfold UseWebSocket.maxReconnectAttempts in Hn.
  rewrite ReconnectFacts.onclose_below
    by (unfold UseWebSocket.maxReconnectAttempts; lia).
  simpl. replace (UseWebSocket.reconnectAttempts st + 1) with n by lia.
  repeat split; try lia.
  intros H4.
  assert (C : n = 1 \/ n = 2 \/ n = 3) by lia.
  destruct C as [->|[->| ->]]; reflexivity.
Qed.

Lemma C3_backoff_delay_witness :
  snd (UseWebSocket.onclose (fst (UseWebSocket.onclose UseWebSocket.initial)))
  = [UseWebSocket.ConsoleLog; UseWebSocket.SetTimeout 4000].
Proof.
  destruct (C3_backoff_delay
              (fst (UseWebSocket.onclose UseWebSocket.initial)) 2)
    as [H _].
  - unfold UseWebSocket.maxReconnectAttempts. lia.
  - reflexivity.
  - exact H.
Defined.

(** C3, as stated, fails at the first attempt: the delay scheduled by the
    first close is 2000 ms, where [min (1000 * 2^(1-1)) 30000] is 1000. *)
Lemma C3_first_delay_is_two_seconds :
  snd (UseWebSocket.onclose UseWebSocket.initial)
  = [UseWebSocket.ConsoleLog; UseWebSocket.SetTimeout 2000]
  /\ 2000 <> Z.min (1000 * 2 ^ (1 - 1)) 30000.
Proof.
  split; [reflexivity|discriminate].
Qed.

(** C4.  From a counter at zero, whatever happens short of a successful
    open (closes, timers firing, messages, calls of the hook's functions),
    at most five reconnections are scheduled; and once the counter is at
    five nothing that follows schedules another one. *)
Theorem C4_reconnect_budget
    (JSON_parse : string -> UseWebSocket.Exc UseWebSocket.JsValue)
    (st : UseWebSocket.State) (trace : list UseWebSocket.Event) :
  UseWebSocket.reconnectAttempts st = 0 ->
  forallb (fun e => negb (UseWebSocket.is_Opened e)) trace = true ->
  let st' := fst (UseWebSocket.run JSON_parse st trace) in
  (UseWebSocket.scheduled (snd (UseWebSocket.run JSON_parse st trace)) <= 5)%nat
  /\ (UseWebSocket.reconnectAttempts st' = 5 ->
      forall trace',
        forallb (fun e => negb (UseWebSocket.is_Opened e)) trace' = true ->
        UseWebSocket.scheduled (snd (UseWebSocket.run JSON_parse st' trace'))
        = 0%nat).
Proof.
  intros H0 HT st'.
  assert (HA : 0 <= UseWebSocket.reconnectAttempts st
               <= UseWebSocket.maxReconnectAttempts)
    by (unfold UseWebSocket.maxReconnectAttempts; lia).
  pose proof (ReconnectFacts.run_budget JSON_parse trace st HT HA) as [R1 R2].
  unfold UseWebSocket.maxReconnectAttempts in *.
  split; [lia|].
  intros H5 trace' HT'.
  assert (HA' : 0 <= UseWebSocket.reconnectAttempts st'
                <= UseWebSocket.maxReconnectAttempts)
    by (unfold UseWebSocket.maxReconnectAttempts; lia).
  pose proof (ReconnectFacts.run_budget JSON_parse trace' st' HT' HA')
    as [Q1 Q2].
  unfold UseWebSocket.maxReconnectAttempts in *. lia.
Qed.

Lemma C4_reconnect_budget_witness :
  (UseWebSocket.scheduled
     (snd (UseWebSocket.run (fun _ => UseWebSocket.Throw) UseWebSocket.initial
             (repeat UseWebSocket.Closed 7))) <= 5)%nat.
Proof.
  destruct (C4_reconnect_budget (fun _ => UseWebSocket.Throw)
              UseWebSocket.initial (repeat UseWebSocket.Closed 7)
              eq_refl eq_refl) as [H _].
  exact H.
Defined.

(** C5.  A successful open puts the counter back to zero, the value it has
    on mount, whatever it was and whatever happened before; the close that
    follows schedules the first delay of the sequence again. *)
Theorem C5_open_resets_counter
    (JSON_parse : string -> UseWebSocket.Exc UseWebSocket.JsValue)
    (st : UseWebSocket.State) (trace : list UseWebSocket.Event) :
  UseWebSocket.reconnectAttempts (fst (UseWebSocket.onopen st)) = 0
  /\ UseWebSocket.reconnectAttempts UseWebSocket.initial = 0
  /\ UseWebSocket.reconnectAttempts
       (fst (UseWebSocket.run JSON_parse st (trace ++ [UseWebSocket.Opened])))
     = 0
  /\ snd (UseWebSocket.onclose (fst (UseWebSocket.onopen st)))
     = snd (UseWebSocket.onclose UseWebSocket.initial).
Proof.
  split; [reflexivity|]. split; [reflexivity|]. split; [|reflexivity].
  rewrite ReconnectFacts.run_app.
  destruct (UseWebSocket.run JSON_parse st trace) as [st1 eff1].
  reflexivity.
Qed.

(** C6, as the code has it.  On open the client sends one message, a
    ping, and leaves its task list as it is.  The list is asked for by
    [requestTasks], which sends [get_tasks] when the socket is open and
    nothing otherwise; no handler calls it.  Apart from what the caller
    hands to [sendMessage], every message the hook sends is a ping or a
    [get_tasks]. *)
Theorem C6_open_sends_ping
    (JSON_parse : string -> UseWebSocket.Exc UseWebSocket.JsValue)
    (st : UseWebSocket.State) (e : UseWebSocket.Event) :
  snd (UseWebSocket.onopen st)
  = [UseWebSocket.ConsoleLog; UseWebSocket.Send (UseWebSocket.control "ping")]
  /\ UseWebSocket.tasks (fst (UseWebSocket.onopen st)) = UseWebSocket.tasks st
  /\ snd (UseWebSocket.requestTasks st)
     = match UseWebSocket.wsRef st with
       | Some UseWebSocket.OPEN =>
           [UseWebSocket.Send (UseWebSocket.control "get_tasks")]
       | _ => []
       end
  /\ match e with
     | UseWebSocket.CallSendMessage _ => True
     | _ =>
         Forall (fun eff =>
                   match eff with
                   | UseWebSocket.Send m =>
                       m = UseWebSocket.control "ping"
                       \/ (e = UseWebSocket.CallRequestTasks
                           /\ m = UseWebSocket.control "get_tasks")
                   | _ => True
                   end)
           (snd (UseWebSocket.step JSON_parse st e))
     end.
Proof.
  split; [reflexivity|]. split; [reflexivity|]. split.
  - unfold UseWebSocket.requestTasks, UseWebSocket.sendMessage.
    now destruct (UseWebSocket.wsRef st) as [[]|].
  - destruct e; simpl; trivial.
    + repeat constructor.
    + unfold UseWebSocket.onmessage, UseWebSocket.onmessage_try.
      destruct (JSON_parse event_data) as [[| |m]|]; simpl;
        repeat constructor.
      destruct (String.eqb (Types.type m) "pong"); [constructor|].
      destruct (String.eqb (Types.type m) "tasks_update");
        [destruct (Types.tasks m); constructor|].
      destruct (String.eqb (Types.type m) "task_update");
        [destruct (Types.data m); constructor|repeat constructor].
    + unfold UseWebSocket.onclose.
      destruct (_ <? _); simpl; repeat constructor.
    + destruct constructed; repeat constructor.
    + unfold UseWebSocket.pingInterval.
      destruct (UseWebSocket.wsRef st) as [[]|]; simpl; repeat constructor.
    + unfold UseWebSocket.requestTasks, UseWebSocket.sendMessage.
      destruct (UseWebSocket.wsRef st) as [[]|]; simpl; try constructor;
        [right; now split|constructor].
    + destruct constructed; repeat constructor.
    + destruct (UseWebSocket.reconnectTimeoutRef st),
        (UseWebSocket.wsRef st); simpl; repeat constructor.
Qed.

(** C6, as stated, fails: after a drop and a successful reconnection the
    client has sent a ping and nothing else, and what [requestTasks]
    sends is not [request_resync]. *)
Lemma C6_no_resync_on_open :
  let r := UseWebSocket.run (fun _ => UseWebSocket.Throw) UseWebSocket.initial
             [UseWebSocket.CallConnect true; UseWebSocket.Opened;
              UseWebSocket.Closed; UseWebSocket.ReconnectTimerFired true;
              UseWebSocket.Opened] in
  filter (fun eff => match eff with UseWebSocket.Send _ => true | _ => false end)
    (snd r)
  = [UseWebSocket.Send (UseWebSocket.control "ping");
     UseWebSocket.Send (UseWebSocket.control "ping")]
  /\ ~ In (UseWebSocket.Send (UseWebSocket.control "request_resync")) (snd r)
  /\ snd (UseWebSocket.requestTasks (fst r))
     = [UseWebSocket.Send (UseWebSocket.control "get_tasks")]
  /\ UseWebSocket.control "get_tasks" <> UseWebSocket.control "request_resync".
Proof.
  repeat split; try discriminate.
  simpl. intros H.
  repeat (destruct H as [H|H]; [discriminate H|]). exact H.
Qed.

(** ** Action kinds *)

(** C7.  The kind of an action is one of the seven members of
    [ActionType], which are distinct and carry distinct names; an action
    record holds no other kind. *)
Theorem C7_action_kinds_closed (a : Types.TaskAction) :
  In (Types.action a) Types.ActionType_members
  /\ List.length Types.ActionType_members = 7%nat
  /\ NoDup Types.ActionType_members
  /\ map Types.ActionType_value Types.ActionType_members
     = ["add_task"; "complete_task"; "list_tasks"; "modify_task";
        "clear_completed"; "update_reminder"; "unclear"]
  /\ NoDup (map Types.ActionType_value Types.ActionType_members).
Proof.
  split; [|split; [reflexivity|split; [|split; [reflexivity|]]]].
  - destruct (Types.action a); simpl; tauto.
  - repeat constructor; simpl; intuition discriminate.
  - repeat constructor; simpl; intuition discriminate.
Qed.

(** ** Messages that are not updates *)

Module MessageFacts.
Import Types UseWebSocket Samples.

Example not_updates :
  map is_update
    [Throw; Ok JsNull; Ok JsUntyped; bare "pong"; bare "ping";
     bare "tasks_update"; bare "task_update"; bare "notification"]
  = [false; false; false; false; false; false; false; false].
Proof. reflexivity. Qed.

End MessageFacts.

(** C9.  A message that is not an update (text that does not parse, a
    value without a type, a type the handler does not know, a
    [tasks_update] without its list, a [task_update] without its record)
    leaves the whole state of the hook, its task list included, as it was;
    the handler returns, with what the [try] block threw caught and
    logged. *)
Theorem C9_malformed_message_ignored
    (JSON_parse : string -> UseWebSocket.Exc UseWebSocket.JsValue)
    (event_data : string) (st : UseWebSocket.State) :
  Samples.is_update (JSON_parse event_data) = false ->
  fst (UseWebSocket.onmessage JSON_parse event_data st) = st
  /\ UseWebSocket.tasks (fst (UseWebSocket.onmessage JSON_parse event_data st))
     = UseWebSocket.tasks st
  /\ (UseWebSocket.onmessage_try JSON_parse event_data st = UseWebSocket.Throw ->
      UseWebSocket.onmessage JSON_parse event_data st
      = (st, [UseWebSocket.ConsoleError])).
Proof.
  intros H.
  assert (E : fst (UseWebSocket.onmessage JSON_parse event_data st) = st).
  { unfold UseWebSocket.onmessage, UseWebSocket.onmessage_try.
    unfold Samples.is_update in H.
    destruct (JSON_parse event_data) as [[| |m]|]; simpl; try reflexivity.
    destruct (String.eqb (Types.type m) "pong") eqn:E1; [reflexivity|].
    destruct (String.eqb (Types.type m) "tasks_update") eqn:E2.
    - destruct (Types.tasks m); [discriminate H|reflexivity].
    - destruct (String.eqb (Types.type m) "task_update") eqn:E3;
        [|reflexivity].
      destruct (Types.data m); [discriminate H|reflexivity]. }
  split; [exact E|split; [now rewrite E|]].
  intros T. unfold UseWebSocket.onmessage. now rewrite T.
Qed.

Lemma C9_malformed_message_ignored_witness :
  let st := UseWebSocket.setTasks [Samples.t1; Samples.t2]
              UseWebSocket.initial in
  UseWebSocket.tasks
    (fst (UseWebSocket.onmessage (fun _ => UseWebSocket.Throw) "{" st))
  = [Samples.t1; Samples.t2]
  /\ UseWebSocket.tasks
       (fst (UseWebSocket.onmessage
               (fun _ => Samples.bare "task_update") EmptyString st))
     = [Samples.t1; Samples.t2]
  /\ UseWebSocket.tasks
       (fst (UseWebSocket.onmessage
               (fun _ => Samples.bare "tasks_update") EmptyString st))
     = [Samples.t1; Samples.t2]
  /\ UseWebSocket.tasks
       (fst (UseWebSocket.onmessage
               (fun _ => UseWebSocket.Ok UseWebSocket.JsNull) "null" st))
     = [Samples.t1; Samples.t2].
Proof.
  intros st.
  pose proof (C9_malformed_message_ignored
                (fun _ => UseWebSocket.Throw) "{" st eq_refl) as [_ [H1 _]].
  pose proof (C9_malformed_message_ignored
                (fun _ => Samples.bare "task_update") EmptyString st eq_refl)
    as [_ [H2 _]].
  pose proof (C9_malformed_message_ignored
                (fun _ => Samples.bare "tasks_update") EmptyString st eq_refl)
    as [_ [H3 _]].
  pose proof (C9_malformed_message_ignored
                (fun _ => UseWebSocket.Ok UseWebSocket.JsNull) "null" st eq_refl)
    as [_ [H4 _]].
  repeat split; assumption.
Defined.

(** ** The encoding helpers *)

Module Base64Facts.
Import Platform Api Alphabet.

Local Open Scope char_scope.
Local Open Scope N_scope.

(** Induction on a list three elements at a time. *)
Lemma list_ind3 {A : Type} (P : list A -> Prop) :
  P [] ->
  (forall a, P [a]) ->
  (forall a b, P [a; b]) ->
  (forall a b c rest, P rest -> P (a :: b :: c :: rest)) ->
  forall l, P l.
Proof.
  intros H0 H1 H2 H3.
  fix IH 1. intros [|a [|b [|c rest]]].
  - exact H0.
  - apply H1.
  - apply H2.
  - apply H3, IH.
Qed.

Ltac euclid := zify; Z.to_euclidean_division_equations; lia.

Lemma octets_sextets_3 (a b c : N) :
  a < 256 -> b < 256 -> c < 256 ->
  (a / 4) * 4 + ((a mod 4) * 16 + b / 16) / 16 = a
  /\ (((a mod 4) * 16 + b / 16) mod 16) * 16 + ((b mod 16) * 4 + c / 64) / 4 = b
  /\ (((b mod 16) * 4 + c / 64) mod 4) * 64 + c mod 64 = c.
Proof. intros Ha Hb Hc. repeat split; euclid. Qed.

Lemma octets_sextets_2 (a b : N) :
  a < 256 -> b < 256 ->
  (a / 4) * 4 + ((a mod 4) * 16 + b / 16) / 16 = a
  /\ (((a mod 4) * 16 + b / 16) mod 16) * 16 + ((b mod 16) * 4) / 4 = b.
Proof. intros Ha Hb. repeat split; euclid. Qed.

Lemma octets_sextets_1 (a : N) :
  a < 256 -> (a / 4) * 4 + ((a mod 4) * 16) / 16 = a.
Proof. intros Ha. euclid. Qed.

Lemma octets_sextets (bs : list N) :
  Forall (fun b => b < 256) bs -> octets (sextets bs) = bs.
Proof.
  induction bs as [|a|a b|a b c rest IH] using list_ind3; intros H.
  - reflexivity.
  - inversion_clear H as [|? ? Ha _]. simpl.
    now rewrite octets_sextets_1.
  - inversion_clear H as [|? ? Ha H']. inversion_clear H' as [|? ? Hb _].
    simpl. destruct (octets_sextets_2 a b Ha Hb) as [-> ->]. reflexivity.
  - inversion_clear H as [|? ? Ha H']. inversion_clear H' as [|? ? Hb H].
    inversion_clear H as [|? ? Hc H'].
    change (octets (sextets (a :: b :: c :: rest)))
      with ((a / 4) * 4 + ((a mod 4) * 16 + b / 16) / 16
            :: (((a mod 4) * 16 + b / 16) mod 16) * 16
               + ((b mod 16) * 4 + c / 64) / 4
            :: (((b mod 16) * 4 + c / 64) mod 4) * 64 + c mod 64
            :: octets (sextets rest)).
    destruct (octets_sextets_3 a b c Ha Hb Hc) as [-> [-> ->]].
    now rewrite IH.
Qed.

Lemma sextets_bounded (bs : list N) :
  Forall (fun b => b < 256) bs -> Forall (fun s => s < 64) (sextets bs).
Proof.
  induction bs as [|a|a b|a b c rest IH] using list_ind3; intros H.
  - constructor.
  - inversion_clear H as [|? ? Ha _]. simpl.
    repeat constructor; euclid.
  - inversion_clear H as [|? ? Ha H']. inversion_clear H' as [|? ? Hb _].
    simpl. repeat constructor; euclid.
  - inversion_clear H as [|? ? Ha H']. inversion_clear H' as [|? ? Hb H].
    inversion_clear H as [|? ? Hc H'].
    change (sextets (a :: b :: c :: rest))
      with (a / 4 :: (a mod 4) * 16 + b / 16 :: (b mod 16) * 4 + c / 64
            :: c mod 64 :: sextets rest).
    repeat (constructor; [euclid|]). now apply IH.
Qed.


(** *** The alphabet *)

Lemma below64_spec (n : N) : n < 64 -> In n below64.
Proof.
  intros H. unfold below64. rewrite <- (N2Nat.id n).
  apply in_map, in_seq. lia.
Qed.

Lemma sextet_of_char_of_sextet (n : N) :
  n < 64 -> sextet_of_char (char_of_sextet n) = Some n.
Proof.
  intros H. apply below64_spec in H. revert n H. apply Forall_forall.
  unfold below64. simpl. repeat constructor.
Qed.

Lemma all_sextets_chars (ns : list N) :
  Forall (fun s => s < 64) ns ->
  all_sextets (map char_of_sextet ns) = Some ns.
Proof.
  induction 1 as [|n ns Hn _ IH]; simpl; [reflexivity|].
  now rewrite sextet_of_char_of_sextet, IH.
Qed.

Lemma char_of_sextet_in_alphabet (n : N) : In (char_of_sextet n) alphabet.
Proof.
  unfold char_of_sextet.
  destruct (Nat.lt_ge_cases (N.to_nat n) (List.length alphabet)) as [H|H].
  - now apply nth_In.
  - rewrite nth_overflow by assumption. now left.
Qed.

Lemma char_of_sextet_plain (n : N) : plain (char_of_sextet n) = true.
Proof.
  assert (A : forallb plain alphabet = true) by reflexivity.
  rewrite forallb_forall in A. apply A, char_of_sextet_in_alphabet.
Qed.

Lemma plain_parts (c : ascii) :
  plain c = true ->
  is_ascii_whitespace c = false /\ Ascii.eqb c "=" = false
  /\ Ascii.eqb c "," = false.
Proof.
  unfold plain. rewrite !andb_true_iff, !negb_true_iff. tauto.
Qed.

(** *** Padding and lengths *)

Lemma padding_cases {A : Type} (bs : list A) :
  padding bs = [] \/ padding bs = ["="] \/ padding bs = ["="; "="].
Proof.
  induction bs as [|a|a b|a b c rest IH] using list_ind3; simpl; auto.
Qed.

Lemma encode_lengths (bs : list N) :
  exists k r : nat,
    List.length (sextets bs) = (4 * k + r)%nat
    /\ ((r = 0 /\ List.length (padding bs) = 0)
        \/ (r = 2 /\ List.length (padding bs) = 2)
        \/ (r = 3 /\ List.length (padding bs) = 1))%nat.
Proof.
  induction bs as [|a|a b|a b c rest IH] using list_ind3.
  - exists 0%nat, 0%nat. simpl. auto.
  - exists 0%nat, 2%nat. simpl. auto.
  - exists 0%nat, 3%nat. simpl. auto.
  - destruct IH as [k [r [H1 H2]]]. exists (S k), r.
    split; [|exact H2].
    change (sextets (a :: b :: c :: rest))
      with (a / 4 :: (a mod 4) * 16 + b / 16 :: (b mod 16) * 4 + c / 64
            :: c mod 64 :: sextets rest).
    simpl List.length. lia.
Qed.

Lemma mod4 (k r : nat) : (r < 4)%nat -> ((4 * k + r) mod 4 = r)%nat.
Proof.
  intros H. rewrite Nat.add_comm, Nat.mul_comm, Nat.Div0.mod_add.
  now apply Nat.mod_small.
Qed.

Lemma remove_padding_chars (ns : list N) (p : list ascii) :
  p = [] \/ p = ["="] \/ p = ["="; "="] ->
  remove_padding (map char_of_sextet ns ++ p) = map char_of_sextet ns.
Proof.
  intros Hp. induction ns as [|n ns IH]; simpl.
  - destruct Hp as [->|[->| ->]]; reflexivity.
  - destruct (plain_parts _ (char_of_sextet_plain n)) as [_ [-> _]].
    simpl. now rewrite IH.
Qed.

Lemma filter_whitespace_chars (ns : list N) (p : list ascii) :
  p = [] \/ p = ["="] \/ p = ["="; "="] ->
  filter (fun c => negb (is_ascii_whitespace c)) (map char_of_sextet ns ++ p)
  = map char_of_sextet ns ++ p.
Proof.
  intros Hp. induction ns as [|n ns IH]; simpl.
  - destruct Hp as [->|[->| ->]]; reflexivity.
  - destruct (plain_parts _ (char_of_sextet_plain n)) as [-> _].
    simpl. now rewrite IH.
Qed.

(** *** Decoding what was encoded *)

Lemma to_N_bounded (bs : list byte) :
  Forall (fun b => b < 256) (map Byte.to_N bs).
Proof.
  induction bs as [|b bs IH]; constructor; [|exact IH].
  pose proof (Byte.to_N_bounded b). lia.
Qed.

Lemma decode_encode (bs : list byte) :
  forgiving_base64_decode (base64_encode bs) = Some (map Byte.to_N bs).
Proof.
  unfold forgiving_base64_decode, base64_encode.
  pose proof (padding_cases bs) as Hp.
  rewrite filter_whitespace_chars by exact Hp.
  destruct (encode_lengths (map Byte.to_N bs)) as [k [r [HL HR]]].
  assert (Hpad : List.length (padding bs)
                 = List.length (padding (map Byte.to_N bs))).
  { clear. induction bs as [|a|a b|a b c rest IH] using list_ind3;
      simpl; auto. }
  assert (E4 : ((List.length (map char_of_sextet (sextets (map Byte.to_N bs))
                                ++ padding bs)) mod 4 = 0)%nat).
  { rewrite length_app, length_map, HL, Hpad.
    destruct HR as [[-> ->]|[[-> ->]|[-> ->]]].
    - rewrite Nat.add_0_r. apply mod4. lia.
    - replace (4 * k + 2 + 2)%nat with (4 * S k + 0)%nat by lia.
      apply mod4. lia.
    - replace (4 * k + 3 + 1)%nat with (4 * S k + 0)%nat by lia.
      apply mod4. lia. }
  rewrite E4, Nat.eqb_refl.
  rewrite remove_padding_chars by exact Hp.
  assert (E1 : (((List.length (map char_of_sextet
                                 (sextets (map Byte.to_N bs)))) mod 4 =? 1)
                = false)%nat).
  { rewrite length_map, HL.
    destruct HR as [[-> _]|[[-> _]|[-> _]]]; now rewrite mod4 by lia. }
  rewrite E1.
  rewrite all_sextets_chars by apply sextets_bounded, to_N_bounded.
  simpl. now rewrite octets_sextets by apply to_N_bounded.
Qed.

Lemma ToUint8_charCode (b : byte) :
  ToUint8 (N_of_ascii (ascii_of_N (Byte.to_N b))) = b.
Proof.
  pose proof (Byte.to_N_bounded b) as H.
  rewrite N_ascii_embedding by lia.
  unfold ToUint8. rewrite N.mod_small by lia.
  now rewrite Byte.of_to_N.
Qed.

Lemma base64ToBlob_encode (bs : list byte) (mimeType : string) :
  base64ToBlob (string_of_list_ascii (base64_encode bs)) mimeType
  = Some (new_Blob bs mimeType).
Proof.
  unfold base64ToBlob, atob.
  rewrite list_ascii_of_string_of_list_ascii, decode_encode. simpl.
  f_equal. f_equal. unfold charCodes.
  rewrite list_ascii_of_string_of_list_ascii, !map_map.
  rewrite <- (map_id bs) at 2. apply map_ext. apply ToUint8_charCode.
Qed.


(** *** Cutting the data URL at its commas *)

Lemma split_nonempty (sep : ascii) (s : string) :
  split sep s = hd EmptyString (split sep s) :: tl (split sep s).
Proof.
  destruct s as [|c s]; simpl; [reflexivity|].
  destruct (Ascii.eqb c sep); [reflexivity|].
  now destruct (split sep s).
Qed.

Lemma split_without (sep : ascii) (s : string) :
  ~ In sep (list_ascii_of_string s) -> split sep s = [s].
Proof.
  induction s as [|c s IH]; simpl; intros H; [reflexivity|].
  destruct (Ascii.eqb_spec c sep) as [E|_]; [exfalso; apply H; now left|].
  rewrite IH by tauto. reflexivity.
Qed.

Lemma split_append (sep : ascii) (a b : string) :
  ~ In sep (list_ascii_of_string a) ->
  split sep (a ++ b)%string
  = (a ++ hd EmptyString (split sep b))%string :: tl (split sep b).
Proof.
  induction a as [|c a IH]; simpl; intros H.
  - apply split_nonempty.
  - destruct (Ascii.eqb_spec c sep) as [E|_]; [exfalso; apply H; now left|].
    rewrite IH by tauto. reflexivity.
Qed.

Lemma base64_encode_without_comma (bs : list byte) :
  ~ In "," (list_ascii_of_string (string_of_list_ascii (base64_encode bs))).
Proof.
  rewrite list_ascii_of_string_of_list_ascii. unfold base64_encode.
  rewrite in_app_iff, in_map_iff. intros [[n [E _]]|H].
  - destruct (plain_parts _ (char_of_sextet_plain n)) as [_ [_ P]].
    rewrite E in P. discriminate P.
  - destruct (padding_cases bs) as [R|[R|R]]; rewrite R in H; simpl in H;
      intuition discriminate.
Qed.

Lemma blobToBase64_without_comma (blob : Blob) :
  ~ In "," (list_ascii_of_string (type blob)) ->
  blobToBase64 blob
  = Some (string_of_list_ascii (base64_encode (bytes blob))).
Proof.
  intros H. unfold blobToBase64, readAsDataURL.
  set (enc := string_of_list_ascii (base64_encode (bytes blob))).
  set (mt := (if String.eqb (type blob) EmptyString then "application/octet-stream"
              else type blob)%string).
  assert (Hmt : ~ In "," (list_ascii_of_string mt)).
  { unfold mt. destruct (String.eqb (type blob) EmptyString); [|exact H].
    simpl. intuition discriminate. }
  assert (Henc : split "," (";base64," ++ enc)%string
                 = [";base64"%string; enc]).
  { simpl. rewrite (split_without "," enc); [reflexivity|].
    apply base64_encode_without_comma. }
  rewrite (split_append "," "data:"%string)
    by (simpl; intuition discriminate).
  rewrite (split_append "," mt) by exact Hmt.
  rewrite Henc. reflexivity.
Qed.

End Base64Facts.

(** The round trip the helpers are written for: a blob whose type holds no
    comma is encoded to text that decodes to a blob of the same bytes. *)
Theorem round_trip_without_comma (blob : Platform.Blob) (mimeType : string) :
  ~ In ","%char (list_ascii_of_string (Platform.type blob)) ->
  exists base64 blob',
    Api.blobToBase64 blob = Some base64
    /\ Api.base64ToBlob base64 mimeType = Some blob'
    /\ Platform.bytes blob' = Platform.bytes blob.
Proof.
  intros H.
  exists (string_of_list_ascii (Platform.base64_encode (Platform.bytes blob))).
  exists (Platform.new_Blob (Platform.bytes blob) mimeType).
  split; [now apply Base64Facts.blobToBase64_without_comma|].
  split; [apply Base64Facts.base64ToBlob_encode|reflexivity].
Qed.

Lemma round_trip_without_comma_witness :
  exists base64 blob',
    Api.blobToBase64
      {| Platform.type := "audio/webm;codecs=opus";
         Platform.bytes := [x1a; x45; xdf; xa3] |} = Some base64
    /\ Api.base64ToBlob base64 "audio/webm;codecs=opus" = Some blob'
    /\ Platform.bytes blob' = [x1a; x45; xdf; xa3].
Proof.
  apply (round_trip_without_comma
           {| Platform.type := "audio/webm;codecs=opus";
              Platform.bytes := [x1a; x45; xdf; xa3] |}).
  simpl. intuition discriminate.
Defined.

(** C10 at a blob whose type holds a comma.  The data URL is cut at the
    first comma, which lies inside the type, so what [blobToBase64]
    resolves with is a piece of the prefix and not the encoded bytes, and
    [base64ToBlob] throws on it. *)
Theorem C10_comma_in_type_breaks_round_trip :
  let blob := {| Platform.type := "video/webm;codecs=vp8,opus";
                 Platform.bytes := [x1a; x45; xdf; xa3] |} in
  Platform.readAsDataURL blob
  = "data:video/webm;codecs=vp8,opus;base64,GkXfow=="
  /\ Api.blobToBase64 blob = Some "opus;base64"
  /\ Api.base64ToBlob "opus;base64" (Platform.type blob) = None
  /\ option_map Platform.bytes (Api.base64ToBlob "GkXfow==" (Platform.type blob))
     = Some (Platform.bytes blob).
Proof.
  repeat split.
Qed.

(** * Further properties *)

(** ** More on the merge and on the hook *)

Module MergeFacts.
Import Types UseWebSocket Samples HookNotions.

Lemma replace_replace (d t : Task) :
  (if id (if id t =? id d then d else t) =? id d then d
   else if id t =? id d then d else t)
  = if id t =? id d then d else t.
Proof.
  destruct (Z.eqb_spec (id t) (id d)) as [E|E]; cbv iota.
  - now rewrite Z.eqb_refl.
  - now destruct (Z.eqb_spec (id t) (id d)).
Qed.

Lemma upsert_has_id (prev : list Task) (d : Task) :
  In (id d) (map id (upsert prev d)).
Proof.
  rewrite UpsertFacts.upsert_ids.
  destruct (in_dec Z.eq_dec (id d) (map id prev)) as [H|H]; [exact H|].
  rewrite in_app_iff. right. now left.
Qed.

Lemma upsert_idempotent (prev : list Task) (d : Task) :
  upsert (upsert prev d) d = upsert prev d.
Proof.
  rewrite (UpsertFacts.upsert_present (upsert prev d) d)
    by apply upsert_has_id.
  destruct (in_dec Z.eq_dec (id d) (map id prev)) as [H|H].
  - rewrite UpsertFacts.upsert_present by exact H.
    rewrite map_map. apply map_ext. intros t. apply replace_replace.
  - rewrite UpsertFacts.upsert_absent by exact H.
    rewrite map_app. simpl. rewrite Z.eqb_refl.
    now rewrite UpsertFacts.map_replace_absent.
Qed.

Lemma upsert_nonempty (prev : list Task) (d : Task) : upsert prev d <> [].
Proof.
  intros E. pose proof (upsert_has_id prev d) as H. rewrite E in H.
  exact H.
Qed.

Lemma in_map_replace (prev : list Task) (d t : Task) :
  In t (map (fun task => if id task =? id d then d else task) prev) ->
  (t = d /\ In (id d) (map id prev)) \/ (id t <> id d /\ In t prev).
Proof.
  rewrite in_map_iff. intros [u [E Hu]].
  destruct (Z.eqb_spec (id u) (id d)) as [I|I].
  - left. split; [now symmetry|]. rewrite <- I. now apply in_map.
  - right. subst u. now split.
Qed.

Lemma in_upsert (prev : list Task) (d t : Task) :
  In t (upsert prev d) <-> t = d \/ (id t <> id d /\ In t prev).
Proof.
  destruct (in_dec Z.eq_dec (id d) (map id prev)) as [H|H].
  - rewrite UpsertFacts.upsert_present by exact H. split.
    + intros Ht. apply in_map_replace in Ht. tauto.
    + intros [->|[I Ht]].
      * apply in_map_iff in H. destruct H as [u [E Hu]].
        apply in_map_iff. exists u. split; [|exact Hu].
        now rewrite E, Z.eqb_refl.
      * apply in_map_iff. exists t. split; [|exact Ht].
        now destruct (Z.eqb_spec (id t) (id d)).
  - rewrite UpsertFacts.upsert_absent by exact H.
    rewrite in_app_iff. simpl. split.
    + intros [Ht|[->|[]]]; [|now left].
      right. split; [|exact Ht]. intros E. apply H. rewrite <- E.
      now apply in_map.
    + intros [->|[_ Ht]]; [right; now left|now left].
Qed.

Lemma find_upsert (prev : list Task) (d : Task) :
  find (fun task => id task =? id d) (upsert prev d) = Some d.
Proof.
  destruct (proj2 (UpsertFacts.find_id_some (upsert prev d) d)
              (upsert_has_id prev d)) as [t F].
  rewrite F. f_equal. apply find_some in F. destruct F as [Hin E].
  apply Z.eqb_eq in E. apply in_upsert in Hin.
  destruct Hin as [->|[I _]]; [reflexivity|contradiction].
Qed.

Lemma map_replace_commute (prev : list Task) (a b : Task) :
  id a <> id b ->
  map (fun task => if id task =? id b then b else task)
    (map (fun task => if id task =? id a then a else task) prev)
  = map (fun task => if id task =? id a then a else task)
      (map (fun task => if id task =? id b then b else task) prev).
Proof.
  intros N. rewrite !map_map. apply map_ext. intros t. cbv beta.
  repeat (match goal with
          | |- context [?x =? ?y] => destruct (Z.eqb_spec x y)
          | H : context [?x =? ?y] |- _ => destruct (Z.eqb_spec x y)
          end; cbv iota in *);
    congruence.
Qed.

Lemma upsert_ids_in (prev : list Task) (d : Task) (i : Z) :
  In i (map id (upsert prev d)) <-> In i (map id prev) \/ i = id d.
Proof.
  rewrite UpsertFacts.upsert_ids.
  destruct (in_dec Z.eq_dec (id d) (map id prev)) as [H|H].
  - split; [tauto|]. intros [Hi| ->]; assumption.
  - rewrite in_app_iff. simpl. intuition.
Qed.

(** One merge after another, the first for an identifier that the view
    has. *)
Lemma upsert_upsert_present (prev : list Task) (a b : Task) :
  id a <> id b ->
  In (id a) (map id prev) ->
  upsert (upsert prev a) b
  = map (fun task => if id task =? id a then a else task) (upsert prev b)
  /\ upsert (upsert prev b) a
     = map (fun task => if id task =? id a then a else task) (upsert prev b).
Proof.
  intros N Ha. split.
  - rewrite (UpsertFacts.upsert_present prev a) by exact Ha.
    destruct (in_dec Z.eq_dec (id b) (map id prev)) as [Hb|Hb].
    + rewrite UpsertFacts.upsert_present
        by now rewrite UpsertFacts.map_replace_ids.
      rewrite (UpsertFacts.upsert_present prev b) by exact Hb.
      now apply map_replace_commute.
    + rewrite UpsertFacts.upsert_absent
        by now rewrite UpsertFacts.map_replace_ids.
      rewrite (UpsertFacts.upsert_absent prev b) by exact Hb.
      rewrite map_app. simpl.
      destruct (Z.eqb_spec (id b) (id a)) as [E|_];
        [symmetry in E; contradiction|reflexivity].
  - apply UpsertFacts.upsert_present. apply upsert_ids_in. now left.
Qed.

Lemma step_keeps_tasks JSON_parse (st : State) (e : Event) :
  is_Received e = false -> tasks (fst (step JSON_parse st e)) = tasks st.
Proof.
  destruct e; try discriminate; intros _; simpl; try reflexivity.
  - unfold onclose. now destruct (_ <? _).
  - unfold reconnectTimer. now destruct constructed.
  - unfold pingInterval. now destruct (wsRef st) as [[]|].
  - unfold sendMessage. now destruct (wsRef st) as [[]|].
  - unfold requestTasks, sendMessage. now destruct (wsRef st) as [[]|].
  - now destruct constructed.
Qed.

Lemma step_not_open JSON_parse (st : State) (e : Event) :
  wsRef st <> Some OPEN -> is_sending e = true ->
  step JSON_parse st e = (st, []).
Proof.
  intros H. destruct e; try discriminate; intros _; simpl;
    unfold pingInterval, requestTasks, sendMessage;
    destruct (wsRef st) as [[]|]; try reflexivity; now contradiction H.
Qed.

Lemma run_not_open JSON_parse (trace : list Event) (st : State) :
  wsRef st <> Some OPEN -> forallb is_sending trace = true ->
  run JSON_parse st trace = (st, []).
Proof.
  intros H. induction trace as [|e trace IH]; simpl; [reflexivity|].
  intros T. apply andb_true_iff in T. destruct T as [He T].
  rewrite (step_not_open JSON_parse st e H He). now rewrite IH.
Qed.

Lemma step_counter JSON_parse (st : State) (e : Event) :
  0 <= reconnectAttempts st <= maxReconnectAttempts ->
  0 <= reconnectAttempts (fst (step JSON_parse st e)) <= maxReconnectAttempts
  /\ Forall delay_ok (snd (step JSON_parse st e)).
Proof.
  unfold maxReconnectAttempts. intros HA. destruct e; simpl.
  - split; [lia|]. repeat constructor.
  - destruct (ReconnectFacts.onmessage_attempts JSON_parse event_data st)
      as [-> S0].
    split; [lia|]. unfold scheduled in S0.
    apply Forall_forall. intros [] Hx; simpl; trivial.
    exfalso.
    assert (Hf : In (SetTimeout delay)
                   (filter is_SetTimeout
                      (snd (onmessage JSON_parse event_data st))))
      by (apply filter_In; now split).
    apply length_zero_iff_nil in S0. rewrite S0 in Hf. exact Hf.
  - unfold onclose, maxReconnectAttempts.
    destruct (Z.ltb_spec (reconnectAttempts st) 5) as [L|L]; simpl.
    + split; [lia|]. constructor; [exact I|]. constructor; [|constructor].
      simpl. unfold delays.
      assert (C : reconnectAttempts st = 0 \/ reconnectAttempts st = 1
                  \/ reconnectAttempts st = 2 \/ reconnectAttempts st = 3
                  \/ reconnectAttempts st = 4) by lia.
      destruct C as [->|[->|[->|[->| ->]]]]; simpl; tauto.
    + split; [lia|]. repeat constructor.
  - unfold reconnectTimer. destruct constructed; simpl;
      (split; [lia|repeat constructor]).
  - unfold pingInterval. destruct (wsRef st) as [[]|]; simpl;
      (split; [lia|repeat constructor]).
  - unfold sendMessage. destruct (wsRef st) as [[]|]; simpl;
      (split; [lia|repeat constructor]).
  - unfold requestTasks, sendMessage. destruct (wsRef st) as [[]|]; simpl;
      (split; [lia|repeat constructor]).
  - destruct constructed; simpl; (split; [lia|repeat constructor]).
  - split; [lia|].
    destruct (reconnectTimeoutRef st), (wsRef st); simpl; repeat constructor.
Qed.

End MergeFacts.

(** X1.  A single-task update delivered twice leaves the list the first
    delivery left. *)
Theorem X1_update_delivered_twice
    (JSON_parse : string -> UseWebSocket.Exc UseWebSocket.JsValue)
    (event_data : string) (m : Types.WebSocketMessage) (d : Types.Task)
    (st : UseWebSocket.State) :
  JSON_parse event_data = UseWebSocket.Ok (UseWebSocket.JsMessage m) ->
  Types.type m = "task_update" ->
  Types.data m = Some d ->
  let once := fst (UseWebSocket.onmessage JSON_parse event_data st) in
  UseWebSocket.tasks (fst (UseWebSocket.onmessage JSON_parse event_data once))
  = UseWebSocket.tasks once.
Proof.
  intros HP HT HD once. unfold once.
  rewrite !(UpsertFacts.onmessage_task_update _ _ _ _ _ HP HT HD). simpl.
  apply MergeFacts.upsert_idempotent.
Qed.

Lemma X1_update_delivered_twice_witness :
  let parse := fun _ : string =>
    UseWebSocket.Ok (UseWebSocket.JsMessage
      {| Types.type := "task_update"; Types.data := Some Samples.t2;
         Types.tasks := None |}) in
  let st := UseWebSocket.setTasks [Samples.t1] UseWebSocket.initial in
  UseWebSocket.tasks
    (fst (UseWebSocket.onmessage parse EmptyString
            (fst (UseWebSocket.onmessage parse EmptyString st))))
  = [Samples.t1; Samples.t2].
Proof.
  intros parse st.
  rewrite (X1_update_delivered_twice parse EmptyString _ Samples.t2 st
             eq_refl eq_refl eq_refl).
  reflexivity.
Defined.

(** X2.  After a merge the record is what [find] returns for its
    identifier, no other task of the view carries that identifier, and
    the tasks with another identifier are those the view had. *)
Theorem X2_merge_membership (prev : list Types.Task) (d t : Types.Task) :
  find (fun task => Types.id task =? Types.id d) (UseWebSocket.upsert prev d)
  = Some d
  /\ (In t (UseWebSocket.upsert prev d) <->
      t = d \/ (Types.id t <> Types.id d /\ In t prev)).
Proof.
  split; [apply MergeFacts.find_upsert|apply MergeFacts.in_upsert].
Qed.

(** X3.  Two merges for different identifiers give the same view in
    either order as soon as the view already has one of the two
    identifiers. *)
Theorem X3_merges_commute (prev : list Types.Task) (a b : Types.Task) :
  Types.id a <> Types.id b ->
  In (Types.id a) (map Types.id prev) \/ In (Types.id b) (map Types.id prev) ->
  UseWebSocket.upsert (UseWebSocket.upsert prev a) b
  = UseWebSocket.upsert (UseWebSocket.upsert prev b) a.
Proof.
  intros N [H|H].
  - destruct (MergeFacts.upsert_upsert_present prev a b N H) as [-> ->].
    reflexivity.
  - assert (N' : Types.id b <> Types.id a) by (intros E; now apply N).
    destruct (MergeFacts.upsert_upsert_present prev b a N' H) as [-> ->].
    reflexivity.
Qed.

Lemma X3_merges_commute_witness :
  UseWebSocket.upsert (UseWebSocket.upsert [Samples.t1] Samples.t1_done)
    Samples.t2
  = UseWebSocket.upsert (UseWebSocket.upsert [Samples.t1] Samples.t2)
      Samples.t1_done.
Proof.
  apply X3_merges_commute.
  - discriminate.
  - left. simpl. now left.
Defined.

(** X4.  Only a received message changes the task list: over any events
    among which there is none (opens, closes, timers, calls of the
    hook's functions) the list stays as it was. *)
Theorem X4_tasks_survive_reconnects
    (JSON_parse : string -> UseWebSocket.Exc UseWebSocket.JsValue)
    (trace : list UseWebSocket.Event) (st : UseWebSocket.State) :
  forallb (fun e => negb (HookNotions.is_Received e)) trace = true ->
  UseWebSocket.tasks (fst (UseWebSocket.run JSON_parse st trace))
  = UseWebSocket.tasks st.
Proof.
  revert st. induction trace as [|e trace IH]; intros st HT; simpl;
    [reflexivity|].
  simpl in HT. apply andb_true_iff in HT. destruct HT as [He HT].
  apply negb_true_iff in He.
  pose proof (MergeFacts.step_keeps_tasks JSON_parse st e He) as S.
  destruct (UseWebSocket.step JSON_parse st e) as [st1 eff1]. simpl in S.
  specialize (IH st1 HT).
  destruct (UseWebSocket.run JSON_parse st1 trace) as [st2 eff2].
  simpl in *. now rewrite IH.
Qed.

Lemma X4_tasks_survive_reconnects_witness :
  UseWebSocket.tasks
    (fst (UseWebSocket.run (fun _ => UseWebSocket.Throw)
            (UseWebSocket.setTasks [Samples.t1; Samples.t2]
               UseWebSocket.initial)
            [UseWebSocket.Closed; UseWebSocket.ReconnectTimerFired true;
             UseWebSocket.Opened; UseWebSocket.CallDisconnect]))
  = [Samples.t1; Samples.t2].
Proof.
  apply (X4_tasks_survive_reconnects (fun _ => UseWebSocket.Throw)
           [UseWebSocket.Closed; UseWebSocket.ReconnectTimerFired true;
            UseWebSocket.Opened; UseWebSocket.CallDisconnect]).
  reflexivity.
Defined.

(** X5.  A snapshot erases what came before it: whatever the events
    handled so far, after a [tasks_update] carrying a list the hook's
    list is that list. *)
Theorem X5_snapshot_after_any_history
    (JSON_parse : string -> UseWebSocket.Exc UseWebSocket.JsValue)
    (trace : list UseWebSocket.Event) (event_data : string)
    (m : Types.WebSocketMessage) (l : list Types.Task)
    (st : UseWebSocket.State) :
  JSON_parse event_data = UseWebSocket.Ok (UseWebSocket.JsMessage m) ->
  Types.type m = "tasks_update" ->
  Types.tasks m = Some l ->
  UseWebSocket.tasks
    (fst (UseWebSocket.run JSON_parse st
            (trace ++ [UseWebSocket.Received event_data]))) = l.
Proof.
  intros HP HT HL. rewrite ReconnectFacts.run_app.
  destruct (UseWebSocket.run JSON_parse st trace) as [st1 eff1]. simpl.
  now rewrite (SnapshotFacts.onmessage_tasks_update _ _ _ _ _ HP HT HL).
Qed.

Lemma X5_snapshot_after_any_history_witness :
  let parse := fun _ : string =>
    UseWebSocket.Ok (UseWebSocket.JsMessage
      {| Types.type := "tasks_update"; Types.data := None;
         Types.tasks := Some [Samples.t2] |}) in
  UseWebSocket.tasks
    (fst (UseWebSocket.run parse
            (UseWebSocket.setTasks [Samples.t1] UseWebSocket.initial)
            ([UseWebSocket.Closed; UseWebSocket.Opened]
               ++ [UseWebSocket.Received EmptyString])))
  = [Samples.t2].
Proof.
  intros parse.
  exact (X5_snapshot_after_any_history parse
           [UseWebSocket.Closed; UseWebSocket.Opened] EmptyString _
           [Samples.t2] _ eq_refl eq_refl eq_refl).
Defined.

(** X6.  Whatever the events, opens included, the counter of attempts
    stays between 0 and 5 and every delay asked for is one of 2, 4, 8, 16
    and 30 seconds. *)
Theorem X6_counter_and_delays_bounded
    (JSON_parse : string -> UseWebSocket.Exc UseWebSocket.JsValue)
    (trace : list UseWebSocket.Event) (st : UseWebSocket.State) :
  0 <= UseWebSocket.reconnectAttempts st <= 5 ->
  0 <= UseWebSocket.reconnectAttempts
         (fst (UseWebSocket.run JSON_parse st trace)) <= 5
  /\ forall d,
       In (UseWebSocket.SetTimeout d)
         (snd (UseWebSocket.run JSON_parse st trace)) ->
       In d [2000; 4000; 8000; 16000; 30000].
Proof.
  revert st. induction trace as [|e trace IH]; intros st HA; simpl.
  - split; [exact HA|intros d []].
  - pose proof (MergeFacts.step_counter JSON_parse st e HA) as [S1 S2].
    destruct (UseWebSocket.step JSON_parse st e) as [st1 eff1].
    simpl in S1, S2. specialize (IH st1 S1).
    destruct (UseWebSocket.run JSON_parse st1 trace) as [st2 eff2].
    simpl in *. destruct IH as [I1 I2]. split; [exact I1|].
    intros d Hd. apply in_app_iff in Hd. destruct Hd as [Hd|Hd].
    + rewrite Forall_forall in S2. exact (S2 _ Hd).
    + now apply I2.
Qed.

Lemma X6_counter_and_delays_bounded_witness :
  0 <= UseWebSocket.reconnectAttempts
         (fst (UseWebSocket.run (fun _ => UseWebSocket.Throw)
                 UseWebSocket.initial
                 [UseWebSocket.Closed; UseWebSocket.Opened;
                  UseWebSocket.Closed])) <= 5.
Proof.
  apply (X6_counter_and_delays_bounded (fun _ => UseWebSocket.Throw)
           [UseWebSocket.Closed; UseWebSocket.Opened; UseWebSocket.Closed]
           UseWebSocket.initial).
  simpl. lia.
Defined.

(** X7.  While the socket is not open nothing is sent: after a
    disconnect, after a close, and between [connect] and the open, every
    [sendMessage], [requestTasks] and keep-alive tick sends nothing and
    leaves the state as it is. *)
Theorem X7_nothing_sent_unless_open
    (JSON_parse : string -> UseWebSocket.Exc UseWebSocket.JsValue)
    (trace : list UseWebSocket.Event) (st0 st : UseWebSocket.State) :
  st = fst (UseWebSocket.disconnect st0)
  \/ st = fst (UseWebSocket.onclose st0)
  \/ st = fst (UseWebSocket.connect true st0) ->
  forallb HookNotions.is_sending trace = true ->
  UseWebSocket.run JSON_parse st trace = (st, []).
Proof.
  intros H. apply MergeFacts.run_not_open.
  destruct H as [->|[->| ->]]; simpl; try discriminate.
  unfold UseWebSocket.onclose. destruct (_ <? _); discriminate.
Qed.

Lemma X7_nothing_sent_unless_open_witness :
  let st := fst (UseWebSocket.disconnect
                   (fst (UseWebSocket.onopen
                           (fst (UseWebSocket.connect true
                                   UseWebSocket.initial))))) in
  UseWebSocket.run (fun _ => UseWebSocket.Throw) st
    [UseWebSocket.CallRequestTasks; UseWebSocket.PingIntervalFired;
     UseWebSocket.CallSendMessage (UseWebSocket.control "get_tasks")]
  = (st, []).
Proof.
  intros st.
  apply (X7_nothing_sent_unless_open (fun _ => UseWebSocket.Throw)
           [UseWebSocket.CallRequestTasks; UseWebSocket.PingIntervalFired;
            UseWebSocket.CallSendMessage (UseWebSocket.control "get_tasks")]
           (fst (UseWebSocket.onopen
                   (fst (UseWebSocket.connect true UseWebSocket.initial))))).
  - left. reflexivity.
  - reflexivity.
Defined.

(** X8.  [disconnect] does not end the reconnection: it keeps the
    counter, so when the close event of the socket it closed arrives and
    the budget is not used up, a reconnection is scheduled as after any
    other close. *)
Theorem X8_close_after_disconnect_reconnects
    (JSON_parse : string -> UseWebSocket.Exc UseWebSocket.JsValue)
    (st : UseWebSocket.State) (s : UseWebSocket.ReadyState) :
  UseWebSocket.wsRef st = Some s ->
  0 <= UseWebSocket.reconnectAttempts st < 5 ->
  exists pre,
    snd (UseWebSocket.run JSON_parse st
           [UseWebSocket.CallDisconnect; UseWebSocket.Closed])
    = pre ++ [UseWebSocket.Close; UseWebSocket.ConsoleLog;
              UseWebSocket.SetTimeout
                (Z.min (1000 * 2 ^ (UseWebSocket.reconnectAttempts st + 1))
                   30000)]
    /\ (pre = [] \/ pre = [UseWebSocket.ClearTimeout]).
Proof.
  intros HW HA. simpl. rewrite HW.
  rewrite ReconnectFacts.onclose_below
    by (unfold UseWebSocket.maxReconnectAttempts; simpl; lia).
  simpl.
  destruct (UseWebSocket.reconnectTimeoutRef st).
  - exists [UseWebSocket.ClearTimeout]. split; [reflexivity|now right].
  - exists []. split; [reflexivity|now left].
Qed.

Lemma X8_close_after_disconnect_reconnects_witness :
  exists pre,
    snd (UseWebSocket.run (fun _ => UseWebSocket.Throw)
           (fst (UseWebSocket.onopen
                   (fst (UseWebSocket.connect true UseWebSocket.initial))))
           [UseWebSocket.CallDisconnect; UseWebSocket.Closed])
    = pre ++ [UseWebSocket.Close; UseWebSocket.ConsoleLog;
              UseWebSocket.SetTimeout 2000]
    /\ (pre = [] \/ pre = [UseWebSocket.ClearTimeout]).
Proof.
  apply (X8_close_after_disconnect_reconnects (fun _ => UseWebSocket.Throw)
           (fst (UseWebSocket.onopen
                   (fst (UseWebSocket.connect true UseWebSocket.initial))))
           UseWebSocket.OPEN).
  - reflexivity.
  - simpl. lia.
Defined.

(** X9.  After a single-task update the list the application displays is
    the hook's merged list, which is never empty, whatever was displayed
    before; on a hook that has received nothing yet it is the one task of
    the update. *)
Theorem X9_update_displays_hook_list
    (JSON_parse : string -> UseWebSocket.Exc UseWebSocket.JsValue)
    (event_data : string) (m : Types.WebSocketMessage) (d : Types.Task)
    (st : UseWebSocket.State) (now : string) (v : App.View) :
  JSON_parse event_data = UseWebSocket.Ok (UseWebSocket.JsMessage m) ->
  Types.type m = "task_update" ->
  Types.data m = Some d ->
  let wsTasks :=
    UseWebSocket.tasks (fst (UseWebSocket.onmessage JSON_parse event_data st)) in
  App.tasks (App.wsTasksEffect now wsTasks v)
  = UseWebSocket.upsert (UseWebSocket.tasks st) d
  /\ (UseWebSocket.tasks st = [] ->
      App.tasks (App.wsTasksEffect now wsTasks v) = [d]).
Proof.
  intros HP HT HD wsTasks.
  assert (E : wsTasks = UseWebSocket.upsert (UseWebSocket.tasks st) d).
  { unfold wsTasks.
    now rewrite (UpsertFacts.onmessage_task_update _ _ _ _ _ HP HT HD). }
  rewrite E, SnapshotFacts.wsTasksEffect_tasks.
  pose proof (MergeFacts.upsert_nonempty (UseWebSocket.tasks st) d) as NE.
  destruct (UseWebSocket.upsert (UseWebSocket.tasks st) d) eqn:U;
    [contradiction|].
  split; [reflexivity|].
  intros H0. rewrite H0 in U. simpl in U. now rewrite <- U.
Qed.

Lemma X9_update_displays_hook_list_witness :
  let parse := fun _ : string =>
    UseWebSocket.Ok (UseWebSocket.JsMessage
      {| Types.type := "task_update"; Types.data := Some Samples.t1_done;
         Types.tasks := None |}) in
  let v := {| App.queryData := Some [Samples.t1; Samples.t2];
              App.lastUpdate := EmptyString |} in
  App.tasks
    (App.wsTasksEffect "2024-01-03T00:00:00.000Z"
       (UseWebSocket.tasks
          (fst (UseWebSocket.onmessage parse EmptyString
                  UseWebSocket.initial))) v)
  = [Samples.t1_done].
Proof.
  intros parse v.
  destruct (X9_update_displays_hook_list parse EmptyString _ Samples.t1_done
              UseWebSocket.initial "2024-01-03T00:00:00.000Z" v
              eq_refl eq_refl eq_refl) as [_ H].
  apply H. reflexivity.
Defined.

(** ** The recorder *)

Module RecorderFacts.
Import Platform Api AppTypes AudioRecorder.

Lemma deliver_step (d : Blob) (ds : list Blob) (st : State) :
  deliver (d :: ds) st = deliver ds (ondataavailable d st).
Proof. reflexivity. Qed.

Lemma ondataavailable_keeps (d : Blob) (st : State) :
  isRecording (ondataavailable d st) = isRecording st
  /\ mediaRecorderRef (ondataavailable d st) = mediaRecorderRef st
  /\ audioURL (ondataavailable d st) = audioURL st
  /\ List.concat (map bytes (audioChunksRef (ondataavailable d st)))
     = List.concat (map bytes (audioChunksRef st)) ++ bytes d
  /\ (Forall (fun b => 0 < size b) (audioChunksRef st) ->
      Forall (fun b => 0 < size b) (audioChunksRef (ondataavailable d st))).
Proof.
  unfold ondataavailable.
  destruct (Z.gtb_spec (size d) 0) as [G|G]; simpl.
  - repeat split.
    + rewrite map_app, concat_app. simpl. now rewrite app_nil_r.
    + intros F. apply Forall_app. split; [exact F|].
      constructor; [lia|constructor].
  - repeat split; [|tauto].
    unfold size in G. destruct (bytes d); [now rewrite app_nil_r|].
    simpl in G. lia.
Qed.

Lemma deliver_keeps (ds : list Blob) : forall st : State,
  isRecording (deliver ds st) = isRecording st
  /\ mediaRecorderRef (deliver ds st) = mediaRecorderRef st
  /\ audioURL (deliver ds st) = audioURL st
  /\ List.concat (map bytes (audioChunksRef (deliver ds st)))
     = List.concat (map bytes (audioChunksRef st))
         ++ List.concat (map bytes ds)
  /\ (Forall (fun b => 0 < size b) (audioChunksRef st) ->
      Forall (fun b => 0 < size b) (audioChunksRef (deliver ds st))).
Proof.
  induction ds as [|d ds IH]; intros st.
  - simpl. rewrite app_nil_r. tauto.
  - rewrite deliver_step.
    destruct (IH (ondataavailable d st)) as [I1 [I2 [I3 [I4 I5]]]].
    destruct (ondataavailable_keeps d st) as [O1 [O2 [O3 [O4 O5]]]].
    rewrite I1, I2, I3, I4, O1, O2, O3, O4.
    repeat split.
    + simpl. now rewrite app_assoc.
    + intros F. apply I5, O5, F.
Qed.

Lemma opus_blob (bs : list byte) :
  new_Blob bs "audio/webm;codecs=opus"
  = {| type := "audio/webm;codecs=opus"; bytes := bs |}.
Proof. reflexivity. Qed.

Lemma stopRecording_some (created : string) (pending : list Blob)
    (st st' : State) (rec : AudioRecording) :
  stopRecording created pending st = (Some rec, st') ->
  mediaRecorderRef st = true /\ isRecording st = true
  /\ rec = {| blob := {| type := "audio/webm;codecs=opus";
                         bytes := List.concat
                                    (map bytes
                                       (audioChunksRef (deliver pending st))) |};
              url := created; duration := 0 |}
  /\ isRecording st' = false
  /\ mediaRecorderRef st' = true.
Proof.
  unfold stopRecording.
  destruct (mediaRecorderRef st) eqn:M, (isRecording st) eqn:R; simpl;
    try discriminate.
  intros E. injection E as <- <-. simpl.
  destruct (deliver_keeps pending st) as [_ [-> _]].
  repeat split; try assumption.
Qed.

Lemma recording_round_trip (created : string) (pending : list Blob)
    (st st' : State) (rec : AudioRecording) :
  stopRecording created pending st = (Some rec, st') ->
  exists base64,
    blobToBase64 (blob rec) = Some base64
    /\ base64ToBlob base64 (type (blob rec)) = Some (blob rec).
Proof.
  intros H. apply stopRecording_some in H.
  destruct H as [_ [_ [-> _]]]. simpl.
  eexists. split.
  - apply Base64Facts.blobToBase64_without_comma. simpl.
    intuition discriminate.
  - simpl. rewrite Base64Facts.base64ToBlob_encode.
    now rewrite opus_blob.
Qed.

End RecorderFacts.

(** X10.  A recording holds every byte the recorder delivered since it
    was started, in order, and nothing of what the hook held before: the
    blob [stopRecording] resolves with has type [audio/webm;codecs=opus]
    and the bytes of all the data events, those still arriving while it
    stops included. *)
Theorem X10_recording_holds_delivered_bytes
    (st0 : AudioRecorder.State) (ds pending : list Platform.Blob)
    (created : string) :
  let st :=
    AudioRecorder.deliver ds
      (fst (AudioRecorder.startRecording AudioRecorder.Started st0)) in
  exists rec st',
    AudioRecorder.stopRecording created pending st = (Some rec, st')
    /\ Platform.bytes (AppTypes.blob rec)
       = List.concat (map Platform.bytes (ds ++ pending))
    /\ Platform.type (AppTypes.blob rec) = "audio/webm;codecs=opus"
    /\ AppTypes.url rec = created
    /\ AudioRecorder.isRecording st' = false.
Proof.
  intros st.
  destruct (RecorderFacts.deliver_keeps ds
              (fst (AudioRecorder.startRecording AudioRecorder.Started st0)))
    as [K1 [K2 [_ [K4 _]]]].
  fold st in K1, K2, K4. simpl in K1, K2, K4.
  destruct (RecorderFacts.deliver_keeps pending st) as [_ [_ [_ [P4 _]]]].
  unfold AudioRecorder.stopRecording. rewrite K1, K2. simpl.
  eexists. eexists. split; [reflexivity|]. simpl.
  rewrite P4, K4, map_app, concat_app. repeat split.
Qed.

(** X11.  The blob of a recording makes the round trip through the two
    encoding helpers: [blobToBase64] resolves with a text from which
    [base64ToBlob], given the blob's type, builds the same blob again. *)
Theorem X11_recording_round_trip
    (created : string) (pending : list Platform.Blob)
    (st st' : AudioRecorder.State) (rec : AppTypes.AudioRecording) :
  AudioRecorder.stopRecording created pending st = (Some rec, st') ->
  exists base64,
    Api.blobToBase64 (AppTypes.blob rec) = Some base64
    /\ Api.base64ToBlob base64 (Platform.type (AppTypes.blob rec))
       = Some (AppTypes.blob rec).
Proof.
  apply RecorderFacts.recording_round_trip.
Qed.

Lemma X11_recording_round_trip_witness :
  exists base64,
    Api.blobToBase64
      {| Platform.type := "audio/webm;codecs=opus";
         Platform.bytes := [x1a; x45; xdf; xa3] |} = Some base64
    /\ Api.base64ToBlob base64 "audio/webm;codecs=opus"
       = Some {| Platform.type := "audio/webm;codecs=opus";
                 Platform.bytes := [x1a; x45; xdf; xa3] |}.
Proof.
  exact (X11_recording_round_trip "blob:recording"
           [{| Platform.type := "audio/webm;codecs=opus";
               Platform.bytes := [x1a; x45; xdf; xa3] |}]
           (fst (AudioRecorder.startRecording AudioRecorder.Started
                   AudioRecorder.initial))
           _ _ eq_refl).
Defined.


(** ** The recorder that checks what it collected *)

Module CheckedFacts.
Import Platform AppTypes AudioRecorder.

Lemma totalSize_from (chunks : list Blob) : forall n : Z,
  fold_left (fun sum chunk => sum + size chunk) chunks n
  = n + Z.of_nat (List.length (List.concat (map bytes chunks))).
Proof.
  induction chunks as [|b chunks IH]; intros n; simpl; [lia|].
  rewrite IH, length_app. unfold size. lia.
Qed.

Lemma totalSize_spec (chunks : list Blob) :
  AudioRecorderChecked.totalSize chunks
  = Z.of_nat (List.length (List.concat (map bytes chunks))).
Proof. unfold AudioRecorderChecked.totalSize. now rewrite totalSize_from. Qed.

End CheckedFacts.

(** X26.  In the version of the hook that checks its chunks a recording
    is never empty: after a start and any data events, [stopRecording]
    resolves with [null] exactly when no byte was delivered, and then
    leaves the hook recording; otherwise it resolves with a blob of all
    the bytes delivered, at least one. *)
Theorem X26_no_empty_recording
    (st0 : AudioRecorder.State) (ds pending : list Platform.Blob)
    (created : string) :
  let st :=
    AudioRecorder.deliver ds
      (fst (AudioRecorder.startRecording AudioRecorder.Started st0)) in
  let delivered := List.concat (map Platform.bytes (ds ++ pending)) in
  let result := AudioRecorderChecked.stopRecording created pending st in
  (delivered = [] ->
   fst result = None /\ AudioRecorder.isRecording (snd result) = true)
  /\ (delivered <> [] ->
      exists rec,
        fst result = Some rec
        /\ Platform.bytes (AppTypes.blob rec) = delivered
        /\ 0 < AudioRecorder.size (AppTypes.blob rec)
        /\ AudioRecorder.isRecording (snd result) = false).
Proof.
  intros st delivered result.
  destruct (RecorderFacts.deliver_keeps ds
              (fst (AudioRecorder.startRecording AudioRecorder.Started st0)))
    as [K1 [K2 [_ [K4 _]]]].
  fold st in K1, K2, K4. simpl in K1, K2, K4.
  destruct (RecorderFacts.deliver_keeps pending st) as [P1 [_ [_ [P4 _]]]].
  assert (E : List.concat
                (map Platform.bytes
                   (AudioRecorder.audioChunksRef
                      (AudioRecorder.deliver pending st))) = delivered).
  { unfold delivered. now rewrite P4, K4, map_app, concat_app. }
  unfold result, AudioRecorderChecked.stopRecording.
  rewrite K1, K2. simpl. rewrite CheckedFacts.totalSize_spec, E.
  split.
  - intros ->. simpl. split; [reflexivity|]. now rewrite P1.
  - intros NE.
    destruct (Z.eqb_spec (Z.of_nat (List.length delivered)) 0) as [Z0|Z0].
    + destruct delivered; [contradiction|simpl in Z0; lia].
    + eexists. split; [reflexivity|]. simpl.
      unfold AudioRecorder.size. simpl. rewrite E.
      repeat split. lia.
Qed.

Lemma X26_no_empty_recording_witness :
  fst (AudioRecorderChecked.stopRecording "blob:recording"
         [{| Platform.type := "audio/webm;codecs=opus";
             Platform.bytes := [] |}]
         (fst (AudioRecorder.startRecording AudioRecorder.Started
                 AudioRecorder.initial)))
  = None.
Proof.
  destruct (X26_no_empty_recording AudioRecorder.initial []
              [{| Platform.type := "audio/webm;codecs=opus";
                  Platform.bytes := [] |}] "blob:recording") as [H _].
  apply H. reflexivity.
Defined.

(** ** The handlers of the application *)

Module HandlerFacts.
Import Types AppTypes AppContent HandlerNotions.

Lemma click_listening (o : Awaited) (c : Content) :
  hasAudioPermission c = true ->
  appState c = LISTENING ->
  outcome (handleVoiceButtonClick o) c = listening_table o c.
Proof.
  destruct c as [s perm r sh [q u]]. simpl. intros -> ->.
  destruct o as [started stopped loads processed called fetched clock].
  unfold outcome, handleVoiceButtonClick, listening_table. simpl.
  destruct stopped as [[rec|]|]; [|reflexivity|reflexivity].
  destruct loads; [|reflexivity].
  destruct processed as [resp|]; [|reflexivity].
  destruct fetched as [[l|]|]; reflexivity.
Qed.

Lemma click_inert (o : Awaited) (c : Content) :
  hasAudioPermission c = true ->
  appState c = PROCESSING \/ appState c = SPEAKING \/ appState c = ERROR ->
  outcome (handleVoiceButtonClick o) c = (c, []).
Proof.
  destruct c as [s perm r sh v]. simpl. intros -> [->|[->| ->]];
    reflexivity.
Qed.

Lemma clicks_inert (os : list Awaited) (c : Content) :
  hasAudioPermission c = true ->
  appState c = PROCESSING \/ appState c = SPEAKING \/ appState c = ERROR ->
  clicks os c = (c, []).
Proof.
  intros HP HS. induction os as [|o os IH]; simpl; [reflexivity|].
  rewrite (click_inert o c HP HS). now rewrite IH.
Qed.

Lemma complete_table (o : Awaited) (i : Z) (c : Content) :
  outcome (handleCompleteTask o i) c = task_table o (CompleteTask i) c.
Proof.
  destruct c as [s perm r sh [q u]].
  destruct o as [started stopped loads processed called fetched clock].
  unfold outcome, handleCompleteTask, task_table. simpl.
  destruct called as [[]|]; [|reflexivity].
  destruct fetched as [[l|]|]; reflexivity.
Qed.

Lemma delete_table (o : Awaited) (i : Z) (c : Content) :
  outcome (handleDeleteTask o i) c = task_table o (DeleteTask i) c.
Proof.
  destruct c as [s perm r sh [q u]].
  destruct o as [started stopped loads processed called fetched clock].
  unfold outcome, handleDeleteTask, task_table. simpl.
  destruct called as [[]|]; [|reflexivity].
  destruct fetched as [[l|]|]; reflexivity.
Qed.

End HandlerFacts.

(** X13.  A click while listening ends in one of three states, by what
    the awaited calls did: processing when [stopRecording] resolved with
    [null]; idle when the recording, its encoding, the command and the
    refetch all went through; error in every other case.  Whatever
    happens, [clearRecording] is called once, last, and the reset timer
    of 2 s is set exactly when the state is left in error. *)
Theorem X13_click_while_listening
    (o : AppContent.Awaited) (c : AppContent.Content) :
  AppContent.hasAudioPermission c = true ->
  AppContent.appState c = AppTypes.LISTENING ->
  let c' := fst (AppContent.outcome (AppContent.handleVoiceButtonClick o) c) in
  let eff := snd (AppContent.outcome (AppContent.handleVoiceButtonClick o) c) in
  AppContent.appState c'
  = match AppContent.stopRecording o with
    | UseWebSocket.Ok None => AppTypes.PROCESSING
    | UseWebSocket.Ok (Some _) =>
        if AppContent.readerLoads o
           && HandlerNotions.resolved (AppContent.processVoiceCommand o)
           && HandlerNotions.resolved (AppContent.refetched o)
        then AppTypes.IDLE else AppTypes.ERROR
    | UseWebSocket.Throw => AppTypes.ERROR
    end
  /\ (exists pre, eff = pre ++ [AppContent.ClearRecording]
                  /\ ~ In AppContent.ClearRecording pre)
  /\ (In (AppContent.SetTimeout 2000) eff <->
      AppContent.appState c' = AppTypes.ERROR)
  /\ AppContent.hasAudioPermission c' = true.
Proof.
  intros HP HL c' eff. unfold c', eff.
  rewrite (HandlerFacts.click_listening o c HP HL).
  unfold HandlerNotions.listening_table.
  destruct (AppContent.stopRecording o) as [[rec|]|];
    [destruct (AppContent.readerLoads o);
       [generalize (Api.blobToBase64 (AppTypes.blob rec)); intros audio;
        destruct (AppContent.processVoiceCommand o) as [resp|];
          [destruct (AppContent.refetched o) as [fetched|]|]|]| |];
    simpl; (split; [reflexivity|]);
    (split; [match goal with
             | |- exists pre, ?l = _ /\ _ => exists (removelast l)
             end; split; [reflexivity|simpl; intuition discriminate]|]);
    (split; [|exact HP]);
    (split; [intros H; intuition discriminate
            |intros H; try discriminate H; tauto]).
Qed.

Lemma X13_click_while_listening_witness :
  AppContent.appState
    (fst (AppContent.outcome
            (AppContent.handleVoiceButtonClick HandlerNotions.sample_awaited)
            (HandlerNotions.sample_content AppTypes.LISTENING)))
  = AppTypes.IDLE.
Proof.
  destruct (X13_click_while_listening HandlerNotions.sample_awaited
              (HandlerNotions.sample_content AppTypes.LISTENING)
              eq_refl eq_refl) as [H _].
  exact H.
Defined.

(** X14.  A click never leaves the application in the error state without
    the timer that ends it: when the state after a click is error and was
    not before, the 2 s timer has been set, and its callback puts the
    state back to idle. *)
Theorem X14_error_is_reset
    (o : AppContent.Awaited) (c : AppContent.Content) :
  let c' := fst (AppContent.outcome (AppContent.handleVoiceButtonClick o) c) in
  let eff := snd (AppContent.outcome (AppContent.handleVoiceButtonClick o) c) in
  AppContent.appState c <> AppTypes.ERROR ->
  AppContent.appState c' = AppTypes.ERROR ->
  In (AppContent.SetTimeout 2000) eff
  /\ AppContent.appState (fst (AppContent.outcome AppContent.errorTimer c'))
     = AppTypes.IDLE.
Proof.
  intros c' eff NE HE. split; [|reflexivity]. unfold c', eff in *.
  destruct (AppContent.hasAudioPermission c) eqn:HP.
  - destruct (AppContent.appState c) eqn:HS.
    + revert HE. destruct c as [s perm r sh v]. simpl in *. subst.
      unfold AppContent.outcome, AppContent.handleVoiceButtonClick. simpl.
      destruct (AppContent.startRecording o); cbn; [discriminate|tauto].
    + revert HE. rewrite (HandlerFacts.click_listening o c HP HS).
      unfold HandlerNotions.listening_table.
      destruct (AppContent.stopRecording o) as [[rec|]|];
        [destruct (AppContent.readerLoads o);
           [generalize (Api.blobToBase64 (AppTypes.blob rec)); intros audio;
            destruct (AppContent.processVoiceCommand o) as [resp|];
              [destruct (AppContent.refetched o) as [fetched|]|]|]| |];
        simpl; try discriminate; tauto.
    + rewrite HandlerFacts.click_inert in HE by tauto. simpl in HE.
      congruence.
    + rewrite HandlerFacts.click_inert in HE by tauto. simpl in HE.
      congruence.
    + contradiction.
  - revert HE. destruct c as [s perm r sh v]. simpl in *. subst.
    unfold AppContent.outcome, AppContent.handleVoiceButtonClick. simpl.
    intros HE. contradiction.
Qed.

Lemma X14_error_is_reset_witness :
  In (AppContent.SetTimeout 2000)
    (snd (AppContent.outcome
            (AppContent.handleVoiceButtonClick
               {| AppContent.startRecording := false;
                  AppContent.stopRecording := UseWebSocket.Throw;
                  AppContent.readerLoads := true;
                  AppContent.processVoiceCommand := UseWebSocket.Throw;
                  AppContent.taskCall := UseWebSocket.Throw;
                  AppContent.refetched := UseWebSocket.Throw;
                  AppContent.now := EmptyString |})
            (HandlerNotions.sample_content AppTypes.IDLE))).
Proof.
  apply (X14_error_is_reset
           {| AppContent.startRecording := false;
              AppContent.stopRecording := UseWebSocket.Throw;
              AppContent.readerLoads := true;
              AppContent.processVoiceCommand := UseWebSocket.Throw;
              AppContent.taskCall := UseWebSocket.Throw;
              AppContent.refetched := UseWebSocket.Throw;
              AppContent.now := EmptyString |}
           (HandlerNotions.sample_content AppTypes.IDLE)).
  - discriminate.
  - reflexivity.
Defined.

(** X15.  When [stopRecording] resolves with [null] the click leaves the
    state at processing with no timer set, and from there no click of
    the voice button does anything: whatever their awaited calls would
    settle with, the content stays as it is and nothing is called. *)
Theorem X15_no_recording_stays_processing
    (o : AppContent.Awaited) (os : list AppContent.Awaited)
    (c : AppContent.Content) :
  AppContent.hasAudioPermission c = true ->
  AppContent.appState c = AppTypes.LISTENING ->
  AppContent.stopRecording o = UseWebSocket.Ok None ->
  let c' := fst (AppContent.outcome (AppContent.handleVoiceButtonClick o) c) in
  AppContent.outcome (AppContent.handleVoiceButtonClick o) c
  = (c', [AppContent.StopRecording; AppContent.ClearRecording])
  /\ AppContent.appState c' = AppTypes.PROCESSING
  /\ HandlerNotions.clicks os c' = (c', []).
Proof.
  intros HP HL HS c'. unfold c'.
  rewrite (HandlerFacts.click_listening o c HP HL).
  unfold HandlerNotions.listening_table. rewrite HS. simpl.
  split; [reflexivity|]. split; [reflexivity|].
  apply HandlerFacts.clicks_inert; simpl; [exact HP|now left].
Qed.

Lemma X15_no_recording_stays_processing_witness :
  let o := {| AppContent.startRecording := true;
              AppContent.stopRecording := UseWebSocket.Ok None;
              AppContent.readerLoads := true;
              AppContent.processVoiceCommand := UseWebSocket.Throw;
              AppContent.taskCall := UseWebSocket.Throw;
              AppContent.refetched := UseWebSocket.Throw;
              AppContent.now := EmptyString |} in
  AppContent.appState
    (fst (AppContent.outcome (AppContent.handleVoiceButtonClick o)
            (HandlerNotions.sample_content AppTypes.LISTENING)))
  = AppTypes.PROCESSING.
Proof.
  intros o.
  destruct (X15_no_recording_stays_processing o
              [HandlerNotions.sample_awaited; HandlerNotions.sample_awaited]
              (HandlerNotions.sample_content AppTypes.LISTENING)
              eq_refl eq_refl eq_refl) as [_ [H _]].
  exact H.
Defined.

(** X16.  What the application sends for a recording of the recorder hook
    is the encoding of that recording: the text handed to
    [processVoiceCommand] is one from which [base64ToBlob], given the
    blob's type, builds the recorded blob again. *)
Theorem X16_recording_is_what_is_sent
    (created : string) (pending : list Platform.Blob)
    (st st' : AudioRecorder.State) (rec : AppTypes.AudioRecording)
    (o : AppContent.Awaited) (c : AppContent.Content) :
  AudioRecorder.stopRecording created pending st = (Some rec, st') ->
  AppContent.stopRecording o = UseWebSocket.Ok (Some rec) ->
  AppContent.readerLoads o = true ->
  AppContent.hasAudioPermission c = true ->
  AppContent.appState c = AppTypes.LISTENING ->
  exists base64,
    In (AppContent.ProcessVoiceCommand (Some base64))
      (snd (AppContent.outcome (AppContent.handleVoiceButtonClick o) c))
    /\ Api.base64ToBlob base64 (Platform.type (AppTypes.blob rec))
       = Some (AppTypes.blob rec).
Proof.
  intros HR HS HL HP HA.
  destruct (RecorderFacts.recording_round_trip created pending st st' rec HR)
    as [base64 [E1 E2]].
  exists base64. split; [|exact E2].
  rewrite (HandlerFacts.click_listening o c HP HA).
  unfold HandlerNotions.listening_table. rewrite HS, HL, E1.
  destruct (AppContent.processVoiceCommand o) as [resp|];
    [destruct (AppContent.refetched o) as [fetched|]|];
    simpl; tauto.
Qed.

Lemma X16_recording_is_what_is_sent_witness :
  exists base64,
    In (AppContent.ProcessVoiceCommand (Some base64))
      (snd (AppContent.outcome
              (AppContent.handleVoiceButtonClick HandlerNotions.sample_awaited)
              (HandlerNotions.sample_content AppTypes.LISTENING)))
    /\ Api.base64ToBlob base64 "audio/webm;codecs=opus"
       = Some (AppTypes.blob HandlerNotions.sample_recording).
Proof.
  exact (X16_recording_is_what_is_sent "blob:recording"
           [AppTypes.blob HandlerNotions.sample_recording]
           (fst (AudioRecorder.startRecording AudioRecorder.Started
                   AudioRecorder.initial))
           _ HandlerNotions.sample_recording HandlerNotions.sample_awaited
           (HandlerNotions.sample_content AppTypes.LISTENING)
           eq_refl eq_refl eq_refl eq_refl eq_refl).
Defined.

(** X17.  The answer of the server is displayed exactly when
    [processVoiceCommand] resolved, also when the refetch after it
    fails; when the recording, its encoding or the command fails, the
    response displayed before stays as it was. *)
Theorem X17_response_displayed
    (o : AppContent.Awaited) (c : AppContent.Content) :
  AppContent.hasAudioPermission c = true ->
  AppContent.appState c = AppTypes.LISTENING ->
  let c' := fst (AppContent.outcome (AppContent.handleVoiceButtonClick o) c) in
  match AppContent.stopRecording o, AppContent.readerLoads o,
        AppContent.processVoiceCommand o with
  | UseWebSocket.Ok (Some _), true, UseWebSocket.Ok response =>
      AppContent.lastResponse c' = Some (AppTypes.action response)
      /\ AppContent.showResponse c' = true
  | _, _, _ =>
      AppContent.lastResponse c' = AppContent.lastResponse c
      /\ AppContent.showResponse c' = AppContent.showResponse c
  end.
Proof.
  intros HP HL c'. unfold c'.
  rewrite (HandlerFacts.click_listening o c HP HL).
  unfold HandlerNotions.listening_table.
  destruct (AppContent.stopRecording o) as [[rec|]|];
    [destruct (AppContent.readerLoads o);
       [destruct (AppContent.processVoiceCommand o) as [resp|];
          [destruct (AppContent.refetched o) as [fetched|]|]|]| |];
    simpl; split; reflexivity.
Qed.

Lemma X17_response_displayed_witness :
  AppContent.lastResponse
    (fst (AppContent.outcome
            (AppContent.handleVoiceButtonClick HandlerNotions.sample_awaited)
            (HandlerNotions.sample_content AppTypes.LISTENING)))
  = Some HandlerNotions.sample_action.
Proof.
  destruct (X17_response_displayed HandlerNotions.sample_awaited
              (HandlerNotions.sample_content AppTypes.LISTENING)
              eq_refl eq_refl) as [H _].
  exact H.
Defined.

(** X18.  Completing or deleting a task from the list never touches the
    state of the voice button nor the response displayed; when the call
    to the server fails nothing is refetched, and unless the call and the
    refetch both go through the content stays as it is; when they do, the
    time of the last update is the time of the click. *)
Theorem X18_task_buttons
    (o : AppContent.Awaited) (i : Z) (c : AppContent.Content)
    (h : AppContent.Handler unit) (call : AppContent.Effect) :
  (h = AppContent.handleCompleteTask o i /\ call = AppContent.CompleteTask i)
  \/ (h = AppContent.handleDeleteTask o i /\ call = AppContent.DeleteTask i) ->
  let c' := fst (AppContent.outcome h c) in
  let eff := snd (AppContent.outcome h c) in
  AppContent.appState c' = AppContent.appState c
  /\ AppContent.lastResponse c' = AppContent.lastResponse c
  /\ AppContent.showResponse c' = AppContent.showResponse c
  /\ (AppContent.taskCall o = UseWebSocket.Throw ->
      c' = c /\ eff = [call; AppContent.ConsoleError])
  /\ (HandlerNotions.resolved (AppContent.taskCall o)
        && HandlerNotions.resolved (AppContent.refetched o) = false ->
      c' = c)
  /\ (HandlerNotions.resolved (AppContent.taskCall o)
        && HandlerNotions.resolved (AppContent.refetched o) = true ->
      App.lastUpdate (AppContent.view c') = AppContent.now o).
Proof.
  intros H c' eff.
  assert (E : AppContent.outcome h c = HandlerNotions.task_table o call c).
  { destruct H as [[-> ->]|[-> ->]];
      [apply HandlerFacts.complete_table|apply HandlerFacts.delete_table]. }
  unfold c', eff. rewrite E. unfold HandlerNotions.task_table.
  destruct (AppContent.taskCall o) as [[]|];
    [destruct (AppContent.refetched o) as [fetched|]|];
    simpl; repeat split; try discriminate; reflexivity.
Qed.

Lemma X18_task_buttons_witness :
  App.lastUpdate
    (AppContent.view
       (fst (AppContent.outcome
               (AppContent.handleCompleteTask HandlerNotions.sample_awaited 1)
               (HandlerNotions.sample_content AppTypes.IDLE))))
  = "2024-01-03T00:00:00.000Z".
Proof.
  destruct (X18_task_buttons HandlerNotions.sample_awaited 1
              (HandlerNotions.sample_content AppTypes.IDLE)
              _ _ (or_introl (conj eq_refl eq_refl)))
    as [_ [_ [_ [_ [_ H]]]]].
  apply H. reflexivity.
Defined.

(** ** The task list *)

Module TaskListFacts.
Import Types TaskList TaskListNotions.
Import Permutation.

Lemma partition_perm (tasks : list Task) :
  Permutation (activeTasks tasks ++ completedTasks tasks) tasks.
Proof.
  unfold activeTasks, completedTasks.
  induction tasks as [|t tasks IH]; simpl; [constructor|].
  destruct (completed t); simpl.
  - apply Permutation_sym, Permutation_cons_app, Permutation_sym, IH.
  - now constructor.
Qed.

Lemma partition_length (tasks : list Task) :
  length_Z (activeTasks tasks) + length_Z (completedTasks tasks)
  = length_Z tasks.
Proof.
  unfold length_Z. rewrite <- Nat2Z.inj_add, <- length_app.
  now rewrite (Permutation_length (partition_perm tasks)).
Qed.

Lemma drawn_items (b : bool) (l : list Task) :
  drawn (map (fun task => TaskItem task b) l) = l.
Proof. induction l as [|t l IH]; simpl; [reflexivity|now rewrite IH]. Qed.

Lemma counted_items (b : bool) (l : list Task) :
  counted (map (fun task => TaskItem task b) l) = 0.
Proof. induction l as [|t l IH]; simpl; [reflexivity|exact IH]. Qed.

Lemma drawn_app (r1 r2 : list Row) : drawn (r1 ++ r2) = drawn r1 ++ drawn r2.
Proof. unfold drawn. apply flat_map_app. Qed.

Lemma counted_app (r1 r2 : list Row) :
  counted (r1 ++ r2) = counted r1 + counted r2.
Proof.
  induction r1 as [|r r1 IH]; simpl; [reflexivity|].
  destruct r; rewrite IH; lia.
Qed.

Lemma rows_drawn (tasks : list Task) :
  drawn (rows tasks) = activeTasks tasks ++ firstn 5 (completedTasks tasks)
  /\ counted (rows tasks)
     = Z.max 0 (length_Z (completedTasks tasks) - 5).
Proof.
  unfold rows. rewrite drawn_app, counted_app.
  assert (A : drawn (if length_Z (activeTasks tasks) =? 0
                     then [NoActiveTasks]
                     else map (fun task => TaskItem task false)
                            (activeTasks tasks))
              = activeTasks tasks
              /\ counted (if length_Z (activeTasks tasks) =? 0
                          then [NoActiveTasks]
                          else map (fun task => TaskItem task false)
                                 (activeTasks tasks)) = 0).
  { destruct (Z.eqb_spec (length_Z (activeTasks tasks)) 0) as [E|E].
    - unfold length_Z in E. destruct (activeTasks tasks); [now split|].
      simpl in E. lia.
    - split; [apply drawn_items|apply counted_items]. }
  destruct A as [-> ->].
  destruct (Z.gtb_spec (length_Z (completedTasks tasks)) 0) as [G|G].
  - rewrite drawn_app, counted_app, drawn_items, counted_items.
    destruct (Z.gtb_spec (length_Z (completedTasks tasks)) 5) as [G5|G5];
      simpl.
    + rewrite app_nil_r. split; [reflexivity|lia].
    + rewrite app_nil_r. split; [reflexivity|lia].
  - unfold length_Z in G. destruct (completedTasks tasks); [|simpl in G; lia].
    simpl. split; [reflexivity|].
    unfold length_Z. simpl. lia.
Qed.

Lemma in_firstn {A : Type} (n : nat) (l : list A) (x : A) :
  In x (firstn n l) -> In x l.
Proof.
  intros H. rewrite <- (firstn_skipn n l). apply in_or_app. now left.
Qed.

End TaskListFacts.

(** X19.  The list accounts for every task: each task is either active
    or completed, never both; the rows drawn are the active tasks and the
    first five completed ones, in the order of the list; and the number
    of rows plus the number the closing note counts is the number of
    tasks. *)
Theorem X19_every_task_accounted (tasks : list Types.Task) :
  Permutation.Permutation
    (TaskList.activeTasks tasks ++ TaskList.completedTasks tasks) tasks
  /\ TaskListNotions.drawn (TaskList.rows tasks)
     = TaskList.activeTasks tasks
         ++ firstn 5 (TaskList.completedTasks tasks)
  /\ TaskList.length_Z (TaskListNotions.drawn (TaskList.rows tasks))
       + TaskListNotions.counted (TaskList.rows tasks)
     = TaskList.length_Z tasks
  /\ forall task isCompleted,
       In (TaskList.TaskItem task isCompleted) (TaskList.rows tasks) ->
       In task tasks /\ Types.completed task = isCompleted.
Proof.
  destruct (TaskListFacts.rows_drawn tasks) as [D C].
  split; [apply TaskListFacts.partition_perm|]. split; [exact D|]. split.
  - rewrite D, C. unfold TaskList.length_Z.
    rewrite length_app, length_firstn, Nat2Z.inj_add.
    pose proof (TaskListFacts.partition_length tasks) as P.
    unfold TaskList.length_Z in P. lia.
  - intros task b H. unfold TaskList.rows in H.
    apply in_app_iff in H. destruct H as [H|H].
    + destruct (_ =? 0) in H; [destruct H as [H|[]]; discriminate H|].
      apply in_map_iff in H. destruct H as [t [E Ht]].
      injection E as <- <-. unfold TaskList.activeTasks in Ht.
      apply filter_In in Ht. destruct Ht as [Ht Hc].
      apply negb_true_iff in Hc. now split.
    + destruct (_ >? 0) in H; [|destruct H].
      apply in_app_iff in H. destruct H as [H|H].
      * apply in_map_iff in H. destruct H as [t [E Ht]].
        injection E as <- <-. apply TaskListFacts.in_firstn in Ht.
        unfold TaskList.completedTasks in Ht.
        apply filter_In in Ht. tauto.
      * destruct (_ >? 5) in H; [destruct H as [H|[]]; discriminate H|].
        destruct H.
Qed.



(** X21.  The age shown for a task: a creation time less than an hour
    back, or in the future, reads [Just now]; from one hour up to less
    than a day it reads the whole hours passed, a number from 1 to 23,
    followed by [h ago]; from a day on, and for a date that cannot be
    read, it is the date as the platform prints it. *)
Theorem X21_age_label
    (Date_parse : string -> option Z)
    (toLocaleDateString : option Z -> string)
    (now : Z) (dateString : string) :
  match Date_parse dateString with
  | None =>
      TaskList.formatDate Date_parse toLocaleDateString now dateString
      = toLocaleDateString None
  | Some date =>
      (now - date < 3600000 ->
       TaskList.formatDate Date_parse toLocaleDateString now dateString
       = "Just now")
      /\ (3600000 <= now - date < 86400000 ->
          1 <= (now - date) / 3600000 <= 23
          /\ TaskList.formatDate Date_parse toLocaleDateString now dateString
             = (DecimalString.NilZero.string_of_int
                  (Z.to_int ((now - date) / 3600000)) ++ "h ago")%string)
      /\ (86400000 <= now - date ->
          TaskList.formatDate Date_parse toLocaleDateString now dateString
          = toLocaleDateString (Some date))
  end.
Proof.
  unfold TaskList.formatDate.
  destruct (Date_parse dateString) as [date|]; [|reflexivity].
  unfold TaskList.Qlt_bool, QArith_base.Qle_bool, QArith_base.inject_Z.
  cbn [QArith_base.Qnum QArith_base.Qden Qround.Qfloor].
  change (Z.pos (1000 * 60 * 60)) with 3600000.
  change (Z.pos 1) with 1.
  repeat split.
  - intros H. destruct (Z.leb_spec (1 * 3600000) ((now - date) * 1));
      [lia|reflexivity].
  - apply Z.div_le_lower_bound; lia.
  - assert ((now - date) / 3600000 < 24)
      by (apply Z.div_lt_upper_bound; lia). lia.
  - destruct (Z.leb_spec (1 * 3600000) ((now - date) * 1)); [|lia].
    destruct (Z.leb_spec (24 * 3600000) ((now - date) * 1)); [lia|].
    reflexivity.
  - intros H87.
    destruct (Z.leb_spec (1 * 3600000) ((now - date) * 1)); [|lia].
    destruct (Z.leb_spec (24 * 3600000) ((now - date) * 1)); [|lia].
    reflexivity.
Qed.

Lemma X21_age_label_witness :
  TaskList.formatDate (fun _ => Some 0) (fun _ => "1/1/1970")
    (5 * 3600000 + 1234) "1970-01-01T00:00:00Z"
  = "5h ago".
Proof.
  pose proof (X21_age_label (fun _ => Some 0) (fun _ => "1/1/1970")
                (5 * 3600000 + 1234) "1970-01-01T00:00:00Z") as H.
  simpl in H. destruct H as [_ [H _]].
  destruct H as [_ H]; [lia|]. exact H.
Defined.

(** ** The response panel *)

(** X22.  The panel closes by its timer exactly when it has the button
    to dismiss it: a displayed response of any kind but [unclear] gets
    both the 5 s timer and the button (and the progress bar), and a
    displayed [unclear] response gets neither. *)
Theorem X22_timer_and_button
    (isVisible : bool) (response : option Types.TaskAction) :
  (ResponseDisplay.autoClose isVisible response = Some 5000 <->
   ResponseDisplay.dismissButton isVisible response = true)
  /\ (ResponseDisplay.autoClose isVisible response = None <->
      ResponseDisplay.dismissButton isVisible response = false)
  /\ ResponseDisplay.progressBar isVisible response
     = ResponseDisplay.dismissButton isVisible response
  /\ (ResponseDisplay.dismissButton isVisible response = true ->
      ResponseDisplay.panel isVisible response = true)
  /\ (ResponseDisplay.panel isVisible response = true ->
      (ResponseDisplay.dismissButton isVisible response = false <->
       exists r, response = Some r /\ Types.action r = Types.UNCLEAR)).
Proof.
  unfold ResponseDisplay.autoClose, ResponseDisplay.dismissButton,
    ResponseDisplay.progressBar, ResponseDisplay.panel.
  destruct response as [r|], isVisible; simpl;
    try (repeat split; intros; try discriminate; try reflexivity;
         try tauto; match goal with
                    | H : exists _, _ |- _ =>
                        destruct H as [? [? ?]]; discriminate
                    end).
  destruct (Types.action r) eqn:A; simpl;
    repeat split; intros; try discriminate; try reflexivity;
    try (exists r; now split);
    match goal with
    | H : exists _, _ |- _ =>
        destruct H as [r' [E U]]; injection E as <-; congruence
    end.
Qed.

Lemma X22_timer_and_button_witness :
  ResponseDisplay.panel true (Some (ResponseSamples.respond Types.UNCLEAR))
  = true
  /\ ResponseDisplay.autoClose true
       (Some (ResponseSamples.respond Types.UNCLEAR)) = None
  /\ ResponseDisplay.dismissButton true
       (Some (ResponseSamples.respond Types.UNCLEAR)) = false.
Proof.
  destruct (X22_timer_and_button true
              (Some (ResponseSamples.respond Types.UNCLEAR)))
    as [_ [H2 [_ [_ H5]]]].
  assert (D : ResponseDisplay.dismissButton true
                (Some (ResponseSamples.respond Types.UNCLEAR)) = false).
  { apply H5; [reflexivity|]. eexists. split; reflexivity. }
  split; [reflexivity|]. split; [apply H2, D|exact D].
Defined.

(** X23.  The kind shown after [Action:] never has an underscore in it:
    [replace] changes the first one only, and no name of a kind has a
    second. *)
Theorem X23_label_without_underscore (r : Types.TaskAction) :
  ~ In "_"%char (list_ascii_of_string (ResponseDisplay.actionLabel r))
  /\ String.length (ResponseDisplay.actionLabel r)
     = String.length (Types.ActionType_value (Types.action r)).
Proof.
  unfold ResponseDisplay.actionLabel.
  destruct (Types.action r); simpl; split; try reflexivity;
    intuition discriminate.
Qed.

(** X24.  The panel has one colour per kind of action, the same for its
    background and its frame; a response of kind [update_reminder] has
    no colour of its own and is drawn in the gray of a panel without
    response, with the icon of an unknown kind. *)
Theorem X24_panel_colours (r : Types.TaskAction) :
  exists colour shade,
    ResponseDisplay.getBackgroundColor (Some r)
    = ("bg-" ++ colour ++ "-800/90")%string
    /\ ResponseDisplay.getBorderColor (Some r)
       = ("border-" ++ colour ++ shade)%string
    /\ (colour = "gray" <-> Types.action r = Types.UPDATE_REMINDER)
    /\ (Types.action r = Types.UPDATE_REMINDER ->
        ResponseDisplay.getBackgroundColor (Some r)
        = ResponseDisplay.getBackgroundColor None
        /\ ResponseDisplay.getBorderColor (Some r)
           = ResponseDisplay.getBorderColor None
        /\ ResponseDisplay.getIcon (Some r)
           = ResponseDisplay.AlertCircle "w-6 h-6 text-gray-400").
Proof.
  unfold ResponseDisplay.getBackgroundColor, ResponseDisplay.getBorderColor,
    ResponseDisplay.getIcon.
  destruct (Types.action r).
  - exists "green", "-500". repeat split; discriminate.
  - exists "blue", "-500". repeat split; discriminate.
  - exists "purple", "-500". repeat split; discriminate.
  - exists "yellow", "-500". repeat split; discriminate.
  - exists "orange", "-500". repeat split; discriminate.
  - exists "gray", "-600". repeat split.
  - exists "red", "-500". repeat split; discriminate.
Qed.

Lemma X24_panel_colours_witness :
  ResponseDisplay.getBackgroundColor
    (Some (ResponseSamples.respond Types.UPDATE_REMINDER))
  = "bg-gray-800/90".
Proof.
  destruct (X24_panel_colours (ResponseSamples.respond Types.UPDATE_REMINDER))
    as [colour [shade [_ [_ [_ H]]]]].
  destruct (H eq_refl) as [E _]. exact E.
Defined.

(** ** The text sent for a blob *)

Module EncodedFacts.
Import Platform Api Alphabet.

Local Open Scope char_scope.

Lemma length_string_of_list_ascii (l : list ascii) :
  String.length (string_of_list_ascii l) = List.length l.
Proof. induction l as [|c l IH]; simpl; [reflexivity|now rewrite IH]. Qed.

Lemma div3_step (n : nat) : ((S (S (S n)) + 2) / 3 = S ((n + 2) / 3))%nat.
Proof.
  replace (S (S (S n)) + 2)%nat with (n + 2 + 1 * 3)%nat by lia.
  rewrite Nat.div_add by discriminate. lia.
Qed.

Lemma base64_encode_length (bs : list byte) :
  List.length (base64_encode bs) = (4 * ((List.length bs + 2) / 3))%nat.
Proof.
  unfold base64_encode.
  induction bs as [|a|a b|a b c rest IH] using Base64Facts.list_ind3.
  - reflexivity.
  - reflexivity.
  - reflexivity.
  - change (List.length (a :: b :: c :: rest))
      with (S (S (S (List.length rest)))).
    rewrite div3_step.
    change (map Byte.to_N (a :: b :: c :: rest))
      with (Byte.to_N a :: Byte.to_N b :: Byte.to_N c
            :: map Byte.to_N rest).
    change (padding (a :: b :: c :: rest)) with (padding rest).
    set (ns := map Byte.to_N rest) in *.
    change (sextets (Byte.to_N a :: Byte.to_N b :: Byte.to_N c :: ns))
      with ((Byte.to_N a / 4
             :: (Byte.to_N a mod 4) * 16 + Byte.to_N b / 16
             :: (Byte.to_N b mod 16) * 4 + Byte.to_N c / 64
             :: Byte.to_N c mod 64 :: sextets ns)%N).
    simpl List.length. simpl List.length in IH. lia.
Qed.

Lemma base64_encode_chars (bs : list byte) :
  Forall (fun c => In c alphabet \/ c = "=") (base64_encode bs).
Proof.
  unfold base64_encode. apply Forall_app. split.
  - apply Forall_forall. intros c H. apply in_map_iff in H.
    destruct H as [n [<- _]]. left.
    apply Base64Facts.char_of_sextet_in_alphabet.
  - destruct (Base64Facts.padding_cases bs) as [->|[->| ->]];
      repeat constructor; now right.
Qed.

End EncodedFacts.

(** X25.  For a blob whose type holds no comma the text [blobToBase64]
    resolves with has four characters for every three bytes begun, and
    each is a character of the base64 alphabet or the padding sign. *)
Theorem X25_encoded_text (blob : Platform.Blob) :
  ~ In ","%char (list_ascii_of_string (Platform.type blob)) ->
  exists base64,
    Api.blobToBase64 blob = Some base64
    /\ String.length base64
       = (4 * ((List.length (Platform.bytes blob) + 2) / 3))%nat
    /\ Forall (fun c => In c Platform.alphabet \/ c = "="%char)
         (list_ascii_of_string base64).
Proof.
  intros H.
  exists (string_of_list_ascii (Platform.base64_encode (Platform.bytes blob))).
  split; [now apply Base64Facts.blobToBase64_without_comma|]. split.
  - rewrite EncodedFacts.length_string_of_list_ascii.
    apply EncodedFacts.base64_encode_length.
  - rewrite list_ascii_of_string_of_list_ascii.
    apply EncodedFacts.base64_encode_chars.
Qed.

Lemma X25_encoded_text_witness :
  exists base64,
    Api.blobToBase64
      {| Platform.type := "audio/webm;codecs=opus";
         Platform.bytes := [x1a; x45; xdf; xa3] |} = Some base64
    /\ String.length base64 = 8%nat
    /\ Forall (fun c => In c Platform.alphabet \/ c = "="%char)
         (list_ascii_of_string base64).
Proof.
  apply (X25_encoded_text
           {| Platform.type := "audio/webm;codecs=opus";
              Platform.bytes := [x1a; x45; xdf; xa3] |}).
  simpl. intuition discriminate.
Defined.

Lemma X19_every_task_accounted_witness :
  TaskListNotions.drawn
    (TaskList.rows [Samples.t1; Samples.t1_done; Samples.t2])
  = [Samples.t1; Samples.t2; Samples.t1_done]
  /\ Types.completed Samples.t1_done = true.
Proof.
  destruct (X19_every_task_accounted
              [Samples.t1; Samples.t1_done; Samples.t2]) as [_ [H2 [_ H4]]].
  split; [exact H2|].
  apply (H4 Samples.t1_done true). simpl. tauto.
Defined.
